(** * ytsaurus-k8s-operator: the Managed Server and the ControllerAgent component

    A shallow embedding of [pkg/components/server.go] (the [server] struct and
    its predicates and builders) and of [pkg/components/controller_agent.go]
    (the [doSync] decision procedure with its [Status] and [Sync] wrappers),
    followed by the properties of the design document that concern them.

    Conventions of the embedding:
    - a Go [error] is [option string], [None] being [nil];
    - a Go pointer that may be [nil] is an [option];
    - a run-time panic is an explicit [Panicked] outcome;
    - a method with a pointer receiver that mutates the receiver returns the
      new receiver next to its result;
    - a Go package is a [Module] of the same name, a Go interface or a part of
      the repository that lies outside the embedded files is a type class. *)

From Stdlib Require Import String List Bool ZArith Lia.
Import ListNotations.
Local Open Scope string_scope.

(* ===================================================================== *)
(** * Go run-time values *)

(** Go's [error] interface: [nil] or a message. *)
Definition error : Type := option string.

Definition nil_error : error := None.

(** What a Go run-time panic carries. *)
Inductive panic : Type :=
| IndexOutOfRange (index : nat) (length : nat)
| PanicWithError (e : string).

(** The result of running Go code that may panic. *)
Inductive outcome (A : Type) : Type :=
| Returned (a : A)
| Panicked (p : panic).

Arguments Returned {A} a.
Arguments Panicked {A} p.

(** Indexing a slice, [xs[i]]: panics out of range. *)
Definition index {A : Type} (xs : list A) (i : nat) : outcome A :=
  match nth_error xs i with
  | Some x => Returned x
  | None => Panicked (IndexOutOfRange i (length xs))
  end.

(* ===================================================================== *)
(** * Types of the Kubernetes API and of the cluster spec that the code only
      passes along *)

(** Payload types the embedded code stores and copies without looking
    inside. *)
Class Payloads : Type := {
  ObjectMeta : Type;               (* metav1.ObjectMeta *)
  LabelSelector : Type;            (* metav1.LabelSelector *)
  LocalObjectReference : Type;     (* corev1.LocalObjectReference *)
  ResourceRequirements : Type;     (* corev1.ResourceRequirements *)
  Affinity : Type;                 (* corev1.Affinity *)
  Toleration : Type;               (* corev1.Toleration *)
  VolumeMount : Type;              (* corev1.VolumeMount *)
  Volume : Type;                   (* corev1.Volume *)
  PersistentVolumeClaim : Type;    (* corev1.PersistentVolumeClaim *)
  LocationSpec : Type;             (* element of InstanceSpec.Locations *)
  SpecVolumeMount : Type;          (* element of InstanceSpec.VolumeMounts *)
  SpecVolume : Type;               (* element of InstanceSpec.Volumes *)
  SpecVolumeClaim : Type;          (* element of InstanceSpec.VolumeClaimTemplates *)
  APIProxy : Type;                 (* apiproxy.APIProxy, the client handle *)
  GeneratorFunc : Type;            (* ytconfig.GeneratorFunc *)
  Generator : Type;                (* ytconfig.Generator *)
}.

Module corev1.
Section Types.
Context `{Payloads}.

Record Container : Type := {
  Image : string;
  Name : string;
  Command : list string;
  VolumeMounts : list VolumeMount;
  Resources : option ResourceRequirements;   (* [None]: the zero value *)
}.

Record PodSpec : Type := {
  ImagePullSecrets : list LocalObjectReference;
  SetHostnameAsFQDN : option bool;
  Containers : list Container;
  InitContainers : list Container;
  Volumes : list Volume;
  Affinity_ : option Affinity;
  NodeSelector : list (string * string);
  Tolerations : list Toleration;
}.

Record PodTemplateSpec : Type := {
  TemplateMeta : option ObjectMeta;
  Spec : PodSpec;
}.

(** The zero value of [PodSpec]. *)
Definition emptyPodSpec : PodSpec :=
  {| ImagePullSecrets := []; SetHostnameAsFQDN := None; Containers := [];
     InitContainers := []; Volumes := []; Affinity_ := None;
     NodeSelector := []; Tolerations := [] |}.

End Types.
End corev1.

Module appsv1.
Section Types.
Context `{Payloads}.

Record StatefulSetSpec : Type := {
  Replicas : option Z;             (* *int32 *)
  Selector : option LabelSelector;
  Template : corev1.PodTemplateSpec;
  VolumeClaimTemplates : list PersistentVolumeClaim;
  ServiceName : string;
}.

Record StatefulSet : Type := {
  Meta : option ObjectMeta;
  Spec : StatefulSetSpec;
}.

End Types.
End appsv1.

Module ytv1.

(** Modelled from the spec: the [ClusterState] enumeration is declared in
    [api/v1], outside the embedded files; the design document lists Creating,
    Running, Reconfiguration (a.k.a. Updating), Updated and CreationFailed. *)
Inductive ClusterState : Type :=
| ClusterStateCreating
| ClusterStateRunning
| ClusterStateUpdating
| ClusterStateUpdated
| ClusterStateCreationFailed.

Definition ClusterState_eqb (a b : ClusterState) : bool :=
  match a, b with
  | ClusterStateCreating, ClusterStateCreating
  | ClusterStateRunning, ClusterStateRunning
  | ClusterStateUpdating, ClusterStateUpdating
  | ClusterStateUpdated, ClusterStateUpdated
  | ClusterStateCreationFailed, ClusterStateCreationFailed => true
  | _, _ => false
  end.

Section Types.
Context `{Payloads}.

(** The fields of [InstanceSpec] that [server.go] reads. *)
Record InstanceSpec : Type := {
  Image : option string;           (* *string *)
  InstanceCount : Z;               (* int32 *)
  Locations : list LocationSpec;
  VolumeMounts : list SpecVolumeMount;
  Volumes : list SpecVolume;
  VolumeClaimTemplates : list SpecVolumeClaim;
  Resources : option ResourceRequirements;
  Affinity_ : option Affinity;
  NodeSelector : list (string * string);
  Tolerations : list Toleration;
}.

Record YtsaurusSpec : Type := {
  CoreImage : string;
  ImagePullSecrets : list LocalObjectReference;
  ConfigOverrides : option LocalObjectReference;
}.

Record YtsaurusStatus : Type := {
  State : ClusterState;
}.

Record Ytsaurus : Type := {
  Meta : option ObjectMeta;
  Spec : YtsaurusSpec;
  Status : YtsaurusStatus;
}.

End Types.
End ytv1.

Module apiproxy.
Section Types.
Context `{Payloads}.

(** [apiproxy.Ytsaurus]: the cluster resource read at the start of the tick
    and the client handle. *)
Record Ytsaurus : Type := {
  GetResource : ytv1.Ytsaurus;
  APIProxy_ : APIProxy;
}.

Definition GetClusterState (y : Ytsaurus) : ytv1.ClusterState :=
  ytv1.State (ytv1.Status (GetResource y)).

End Types.
End apiproxy.

Module labeller.
Section Types.
Context `{Payloads}.

Record Labeller : Type := {
  ObjectMeta_ : option ObjectMeta;
  APIProxy_ : APIProxy;
  ComponentLabel : string;
  ComponentName : string;
}.

End Types.
End labeller.

(* ===================================================================== *)
(** * The collaborators of [server.go] that lie outside the embedded files *)

(** The resource wrappers of package [resources], the config helper, the
    helpers of package [components] that shape volumes and the location-init
    command, and the constants of package [consts].  Their code is not part of
    the embedded files: the embedding is parametric in them.  A wrapper holds
    what the last [Fetch] observed; none of the operations below changes
    it. *)
Class Collaborators `{Payloads} : Type := {
  (* resources.StatefulSet *)
  StatefulSetResource : Type;
  NewStatefulSet : string -> labeller.Labeller -> apiproxy.Ytsaurus -> StatefulSetResource;
  StatefulSet_Exists : StatefulSetResource -> bool;
  StatefulSet_OldObject : StatefulSetResource -> appsv1.StatefulSet;
  StatefulSet_Build : StatefulSetResource -> appsv1.StatefulSet;
  StatefulSet_ArePodsReady : StatefulSetResource -> bool;
  (* resources.HeadlessService *)
  HeadlessServiceResource : Type;
  NewHeadlessService : string -> labeller.Labeller -> APIProxy -> HeadlessServiceResource;
  HeadlessService_Exists : HeadlessServiceResource -> bool;
  HeadlessService_Name : HeadlessServiceResource -> string;
  (* resources.MonitoringService *)
  MonitoringServiceResource : Type;
  NewMonitoringService : labeller.Labeller -> APIProxy -> MonitoringServiceResource;
  MonitoringService_Exists : MonitoringServiceResource -> bool;
  (* components.ConfigHelper *)
  ConfigHelper : Type;
  NewConfigHelper :
    labeller.Labeller -> APIProxy -> string -> string ->
    option LocalObjectReference -> GeneratorFunc -> ConfigHelper;
  ConfigHelper_NeedSync : ConfigHelper -> bool;
  ConfigHelper_NeedReload : ConfigHelper -> bool * error;
  ConfigHelper_GetFileName : ConfigHelper -> string;
  (* labeller.Labeller *)
  GetMainConfigMapName : labeller.Labeller -> string;
  (* helpers of package components *)
  getLocationInitCommand : list LocationSpec -> string;
  createVolumeMounts : list SpecVolumeMount -> list VolumeMount;
  createVolumeClaims : list SpecVolumeClaim -> list PersistentVolumeClaim;
  createVolumes : list SpecVolume -> string -> list Volume;
  (* package consts *)
  YTServerContainerName : string;
  PrepareLocationsContainerName : string;
  ConfigMountPoint : string;
  (* path.Join of the Go standard library, at two elements *)
  path_Join : string -> string -> string;
  (* the store behind the client: resources.Sync writes to it *)
  World : Type;
  resources_Sync :
    StatefulSetResource -> appsv1.StatefulSet -> ConfigHelper ->
    HeadlessServiceResource -> MonitoringServiceResource ->
    World -> error * World;
}.

Module resources.
Section StatefulSet.
Context `{Collaborators}.

(** Modelled from the spec: the [NeedSync] method of [resources.StatefulSet] is not part
    of the embedded files.  The design document describes the third disjunct
    of the server's [NeedSync] as "the workload set's replica count does not
    match the instance spec": the observed object's replica count is compared
    with the requested one, an unset count matching nothing. *)
Definition StatefulSet_NeedSync (r : StatefulSetResource) (replicas : Z) : bool :=
  match appsv1.Replicas (appsv1.Spec (StatefulSet_OldObject r)) with
  | Some n => negb (Z.eqb n replicas)
  | None => true
  end.

End StatefulSet.
End resources.

(* ===================================================================== *)
(** * [pkg/components/server.go] *)

Module Server.
Section Server.
Context `{Collaborators}.

(** [type server struct]. *)
Record server : Type := {
  image : string;
  labeller_ : labeller.Labeller;
  ytsaurus : apiproxy.Ytsaurus;
  binaryPath : string;
  instanceSpec : ytv1.InstanceSpec;
  statefulSet : StatefulSetResource;
  headlessService : HeadlessServiceResource;
  monitoringService : MonitoringServiceResource;
  builtStatefulSet : option appsv1.StatefulSet;
  readyCondition : string;
  configHelper : ConfigHelper;
}.

(** [s.builtStatefulSet = b]. *)
Definition set_builtStatefulSet (s : server) (b : option appsv1.StatefulSet) : server :=
  {| image := image s; labeller_ := labeller_ s; ytsaurus := ytsaurus s;
     binaryPath := binaryPath s; instanceSpec := instanceSpec s;
     statefulSet := statefulSet s; headlessService := headlessService s;
     monitoringService := monitoringService s; builtStatefulSet := b;
     readyCondition := readyCondition s; configHelper := configHelper s |}.

(** [func NewServer]. *)
Definition NewServer
  (l : labeller.Labeller) (yt : apiproxy.Ytsaurus) (spec : ytv1.InstanceSpec)
  (binaryPath_ configFileName statefulSetName serviceName : string)
  (generator : GeneratorFunc) : server :=
  let image_ := ytv1.CoreImage (ytv1.Spec (apiproxy.GetResource yt)) in
  let image_ :=
    match ytv1.Image spec with
    | Some override => override
    | None => image_
    end in
  {| image := image_;
     labeller_ := l;
     ytsaurus := yt;
     instanceSpec := spec;
     binaryPath := binaryPath_;
     statefulSet := NewStatefulSet statefulSetName l yt;
     headlessService := NewHeadlessService serviceName l (apiproxy.APIProxy_ yt);
     monitoringService := NewMonitoringService l (apiproxy.APIProxy_ yt);
     builtStatefulSet := None;
     readyCondition := labeller.ComponentName l ++ "Ready";
     configHelper :=
       NewConfigHelper l (apiproxy.APIProxy_ yt) (GetMainConfigMapName l)
         configFileName
         (ytv1.ConfigOverrides (ytv1.Spec (apiproxy.GetResource yt)))
         generator |}.

(** [func (s *server) exists() bool]. *)
Definition exists_ (s : server) : bool :=
  StatefulSet_Exists (statefulSet s) &&
  HeadlessService_Exists (headlessService s) &&
  MonitoringService_Exists (monitoringService s).

(** [func (s *server) NeedSync() bool]. *)
Definition NeedSync (s : server) : bool :=
  ConfigHelper_NeedSync (configHelper s) ||
  negb (exists_ s) ||
  resources.StatefulSet_NeedSync (statefulSet s) (ytv1.InstanceCount (instanceSpec s)).

(** [func (s *server) ArePodsRemoved() bool]. *)
Definition ArePodsRemoved (s : server) : bool :=
  if ConfigHelper_NeedSync (configHelper s)
     || negb (StatefulSet_Exists (statefulSet s))
     || negb (HeadlessService_Exists (headlessService s))
  then false
  else negb (resources.StatefulSet_NeedSync (statefulSet s) 0).

(** The containers of the workload set observed by the last fetch,
    [Spec.Template.Spec.Containers] of [s.statefulSet.OldObject()]. *)
Definition deployedContainers (s : server) : list corev1.Container :=
  corev1.Containers
    (corev1.Spec (appsv1.Template (appsv1.Spec (StatefulSet_OldObject (statefulSet s))))).

(** [func (s *server) imageCorrespondsToSpec() bool]: [Containers[0]] panics
    on an object without containers. *)
Definition imageCorrespondsToSpec (s : server) : outcome bool :=
  match index (deployedContainers s) 0 with
  | Returned c => Returned (String.eqb (corev1.Image c) (image s))
  | Panicked p => Panicked p
  end.

(** [func (s *server) NeedUpdate() bool]. *)
Definition NeedUpdate (s : server) : outcome bool :=
  if negb (exists_ s) then Returned false
  else
    match imageCorrespondsToSpec s with
    | Panicked p => Panicked p
    | Returned corresponds =>
        if negb corresponds then Returned true
        else
          let '(needReload, err) := ConfigHelper_NeedReload (configHelper s) in
          match err with
          | Some _ => Returned false
          | None => Returned needReload
          end
    end.

(** [func (s *server) ArePodsReady(ctx) bool]. *)
Definition ArePodsReady (s : server) : bool :=
  StatefulSet_ArePodsReady (statefulSet s).

(** [func (s *server) RebuildStatefulSet() *appsv1.StatefulSet]: the built
    object and the server with its cache replaced. *)
Definition RebuildStatefulSet (s : server) : appsv1.StatefulSet * server :=
  let locationCreationCommand := getLocationInitCommand (ytv1.Locations (instanceSpec s)) in
  let volumeMounts := createVolumeMounts (ytv1.VolumeMounts (instanceSpec s)) in
  let skeleton := StatefulSet_Build (statefulSet s) in
  let setHostnameAsFQDN := true in
  let podSpec :=
    {| corev1.ImagePullSecrets :=
         ytv1.ImagePullSecrets (ytv1.Spec (apiproxy.GetResource (ytsaurus s)));
       corev1.SetHostnameAsFQDN := Some setHostnameAsFQDN;
       corev1.Containers :=
         [ {| corev1.Image := image s;
              corev1.Name := YTServerContainerName;
              corev1.Command :=
                [ binaryPath s; "--config";
                  path_Join ConfigMountPoint (ConfigHelper_GetFileName (configHelper s)) ];
              corev1.VolumeMounts := volumeMounts;
              corev1.Resources := ytv1.Resources (instanceSpec s) |} ];
       corev1.InitContainers :=
         [ {| corev1.Image := image s;
              corev1.Name := PrepareLocationsContainerName;
              corev1.Command := [ "bash"; "-c"; locationCreationCommand ];
              corev1.VolumeMounts := volumeMounts;
              corev1.Resources := None |} ];
       corev1.Volumes :=
         createVolumes (ytv1.Volumes (instanceSpec s)) (GetMainConfigMapName (labeller_ s));
       corev1.Affinity_ := ytv1.Affinity_ (instanceSpec s);
       corev1.NodeSelector := ytv1.NodeSelector (instanceSpec s);
       corev1.Tolerations := ytv1.Tolerations (instanceSpec s) |} in
  let statefulSet_ :=
    {| appsv1.Meta := appsv1.Meta skeleton;
       appsv1.Spec :=
         {| appsv1.Replicas := Some (ytv1.InstanceCount (instanceSpec s));
            appsv1.Selector := appsv1.Selector (appsv1.Spec skeleton);
            appsv1.Template :=
              {| corev1.TemplateMeta :=
                   corev1.TemplateMeta (appsv1.Template (appsv1.Spec skeleton));
                 corev1.Spec := podSpec |};
            appsv1.VolumeClaimTemplates :=
              createVolumeClaims (ytv1.VolumeClaimTemplates (instanceSpec s));
            appsv1.ServiceName := HeadlessService_Name (headlessService s) |} |} in
  (statefulSet_, set_builtStatefulSet s (Some statefulSet_)).

(** [func (s *server) BuildStatefulSet() *appsv1.StatefulSet]. *)
Definition BuildStatefulSet (s : server) : appsv1.StatefulSet * server :=
  match builtStatefulSet s with
  | Some built => (built, s)
  | None => RebuildStatefulSet s
  end.

(** [func (s *server) Sync(ctx) (err error)]: the three [Build] calls whose
    results are discarded leave the wrappers as they are; the workload set is
    built (or taken from the cache) and the four objects are written. *)
Definition Sync (s : server) (w : World) : error * server * World :=
  let '(built, s') := BuildStatefulSet s in
  let '(err, w') :=
    resources_Sync (statefulSet s') built (configHelper s')
      (headlessService s') (monitoringService s') w in
  (err, s', w').

End Server.
End Server.

(* ===================================================================== *)
(** * Component statuses *)

Module components.

(** Modelled from the spec: the [SyncStatus] enumeration is declared outside
    the embedded files; the design document lists Ready, NotReady/Pending,
    Blocked, NeedLocalUpdate, NeedFullUpdate and NeedRestart. *)
Inductive SyncStatusEnum : Type :=
| SyncStatusReady
| SyncStatusPending
| SyncStatusBlocked
| SyncStatusNeedLocalUpdate
| SyncStatusNeedFullUpdate
| SyncStatusNeedRestart.

(** Modelled from the spec: [ComponentStatus] is declared outside the
    embedded files; the design document describes it as a [SyncStatus] plus an
    optional free-text reason. *)
Record ComponentStatus : Type := {
  SyncStatus : SyncStatusEnum;
  Message : option string;
}.

(** Modelled from the spec: the constructor [SimpleStatus] is declared
    outside the embedded files; a status without a reason. *)
Definition SimpleStatus (status : SyncStatusEnum) : ComponentStatus :=
  {| SyncStatus := status; Message := None |}.

(** Modelled from the spec: the constructor [WaitingStatus] is declared
    outside the embedded files; the design document writes its results
    [Pending("components")] and [Blocked("pods")], a status carrying what is
    waited for as its reason. *)
Definition WaitingStatus (status : SyncStatusEnum) (event : string) : ComponentStatus :=
  {| SyncStatus := status; Message := Some event |}.

(** A value of the [Component] interface as [doSync] uses it: what its
    [GetName] and [Status] methods answer during the tick. *)
Record Component : Type := {
  GetName : string;
  Status : ComponentStatus;
}.

End components.
Export components.

(* ===================================================================== *)
(** * [pkg/components/controller_agent.go] *)

Module ControllerAgent.

Section Types.
Context `{Collaborators}.

(** [type ControllerAgent struct], the embedded [localServerComponent] and
    its [localComponent] flattened into [labeller_], [ytsaurus] and
    [server].  [ytsaurus] and the server's own [ytsaurus] field are the same
    object in the program. *)
Record ControllerAgent : Type := {
  labeller_ : labeller.Labeller;
  ytsaurus : apiproxy.Ytsaurus;
  server : Server.server;
  cfgen : option Generator;
  master : Component;
}.

(** [ca.server = s]. *)
Definition set_server (ca : ControllerAgent) (s : Server.server) : ControllerAgent :=
  {| labeller_ := labeller_ ca; ytsaurus := ytsaurus ca; server := s;
     cfgen := cfgen ca; master := master ca |}.

(** The calls of [doSync] that may act on the cluster. *)
Inductive Call : Type :=
| HandleUpdatingCall (dry : bool)
| ServerSyncCall.

(** What a run of [doSync] reads and changes: the component, the store
    behind the client, and the calls made so far (latest first). *)
Record State : Type := {
  agent : ControllerAgent;
  world : World;
  calls : list Call;
}.

(** Go code over [State] that returns an [A] or panics. *)
Definition M (A : Type) : Type := State -> outcome (A * State).

Definition ret {A : Type} (a : A) : M A := fun st => Returned (a, st).

Definition bind {A B : Type} (c : M A) (k : A -> M B) : M B :=
  fun st =>
    match c st with
    | Returned (a, st') => k a st'
    | Panicked p => Panicked p
    end.

Definition raise {A : Type} (p : panic) : M A := fun _ => Panicked p.

Definition lift {A : Type} (o : outcome A) : M A :=
  fun st =>
    match o with
    | Returned a => Returned (a, st)
    | Panicked p => Panicked p
    end.

Definition get_agent : M ControllerAgent := fun st => Returned (agent st, st).

End Types.

Declare Scope go_scope.
Delimit Scope go_scope with go.
Notation "x <- c ;; k" := (bind c (fun x => k))
  (at level 61, c at next level, right associativity) : go_scope.
Notation "c ;; k" := (bind c (fun _ => k))
  (at level 61, right associativity) : go_scope.

(** The functions of the repository that [doSync] calls and that lie outside
    the embedded files.  [handleUpdatingClusterState] receives the component
    (from which all its Go arguments are taken) and the [dry] flag, may change
    the component and the store, and returns an optional status and an
    error. *)
Class Orchestration `{Collaborators} : Type := {
  IsReadyToUpdateClusterState : ytv1.ClusterState -> bool;
  IsRunningStatus : SyncStatusEnum -> bool;
  handleUpdatingClusterState :
    ControllerAgent -> bool -> World ->
    outcome ((option ComponentStatus * error) * (ControllerAgent * World));
}.

Section Methods.
Context `{Orchestration}.
Local Open Scope go_scope.

(** [func (ca *ControllerAgent) IsUpdatable() bool]. *)
Definition IsUpdatable (ca : ControllerAgent) : bool := true.

(** The call [handleUpdatingClusterState(ctx, ca.ytsaurus, ca,
    &ca.localComponent, ca.server, dry)]. *)
Definition callHandleUpdatingClusterState (dry : bool) : M (option ComponentStatus * error) :=
  fun st =>
    match handleUpdatingClusterState (agent st) dry (world st) with
    | Returned (r, (ca', w')) =>
        Returned (r, {| agent := ca'; world := w';
                        calls := HandleUpdatingCall dry :: calls st |})
    | Panicked p => Panicked p
    end.

(** The call [ca.server.Sync(ctx)]. *)
Definition callServerSync : M error :=
  fun st =>
    let '(err, s', w') := Server.Sync (server (agent st)) (world st) in
    Returned (err, {| agent := set_server (agent st) s'; world := w';
                      calls := ServerSyncCall :: calls st |}).

(** Modelled from the spec: [ca.NeedSync()] is the method of the embedded
    [localServerComponent], declared outside the embedded files; rule 4 of
    the design document consults the Managed Server's [NeedSync]. *)
Definition NeedSync (ca : ControllerAgent) : bool :=
  Server.NeedSync (server ca).

(** [func (ca *ControllerAgent) doSync(ctx, dry bool) (ComponentStatus, error)].
    [needUpdate] and [arePodsReady] are the server's [NeedUpdate] and
    [ArePodsReady].  The [err] bound by the short declaration inside the
    second [if] is local to it: past that [if] the outer [err] is still
    [nil]. *)
Definition doSync (dry : bool) : M (ComponentStatus * error) :=
  let err := nil_error in
  ca <- get_agent ;;
  needLocalUpdate <-
    (if IsReadyToUpdateClusterState (apiproxy.GetClusterState (ytsaurus ca))
     then lift (Server.NeedUpdate (server ca))
     else ret false) ;;
  if needLocalUpdate then ret (SimpleStatus SyncStatusNeedLocalUpdate, err)
  else
    handled <-
      (if ytv1.ClusterState_eqb (apiproxy.GetClusterState (ytsaurus ca))
            ytv1.ClusterStateUpdating
       then callHandleUpdatingClusterState dry
       else ret (None, nil_error)) ;;
    match handled with
    | (Some status, err') => ret (status, err')
    | (None, _) =>
        ca <- get_agent ;;
        if negb (IsRunningStatus (SyncStatus (components.Status (master ca))))
        then ret (WaitingStatus SyncStatusBlocked (GetName (master ca)), err)
        else if NeedSync ca
        then
          err <- (if negb dry then callServerSync else ret err) ;;
          ret (WaitingStatus SyncStatusPending "components", err)
        else if negb (Server.ArePodsReady (server ca))
        then ret (WaitingStatus SyncStatusBlocked "pods", err)
        else ret (SimpleStatus SyncStatusReady, err)
    end.

(** [func (ca *ControllerAgent) Status(ctx) ComponentStatus]. *)
Definition Status : M ComponentStatus :=
  r <- doSync true ;;
  match snd r with
  | Some e => raise (PanicWithError e)
  | None => ret (fst r)
  end.

(** [func (ca *ControllerAgent) Sync(ctx) error]. *)
Definition Sync : M error :=
  r <- doSync false ;;
  ret (snd r).

End Methods.
End ControllerAgent.

(* ===================================================================== *)
(** * What a fetch observes *)

Module Observed.
Section Observed.
Context `{Collaborators}.

(** The image of the first container of the deployed workload set, when
    there is one. *)
Definition deployedImage (s : Server.server) : option string :=
  option_map corev1.Image (hd_error (Server.deployedContainers s)).

(** The replica count of the deployed workload set. *)
Definition deployedReplicas (s : Server.server) : option Z :=
  appsv1.Replicas (appsv1.Spec (StatefulSet_OldObject (Server.statefulSet s))).

(** All three owned objects were found by the fetch. *)
Definition allExist (s : Server.server) : Prop :=
  StatefulSet_Exists (Server.statefulSet s) = true /\
  HeadlessService_Exists (Server.headlessService s) = true /\
  MonitoringService_Exists (Server.monitoringService s) = true.

(** At least one owned object was not found by the fetch. *)
Definition someMissing (s : Server.server) : Prop :=
  StatefulSet_Exists (Server.statefulSet s) = false \/
  HeadlessService_Exists (Server.headlessService s) = false \/
  MonitoringService_Exists (Server.monitoringService s) = false.

(** The Config Provider reports that the deployed config needs a reload: the
    check answers [true] without an error. *)
Definition reloadReported (s : Server.server) : Prop :=
  ConfigHelper_NeedReload (Server.configHelper s) = (true, nil_error).

(** A state a fetch can produce: a workload set that exists has a container
    (the API server admits no pod template without one). *)
Definition wellFetched (s : Server.server) : Prop :=
  Server.exists_ s = true -> Server.deployedContainers s <> [].

(** Everything [RebuildStatefulSet] reads: the resolved image, the binary
    path, the instance spec, the name of the config artifact's file and of
    its config map, the pull secrets of the cluster, the skeleton of the
    workload-set wrapper and the name of the headless service. *)
Definition buildInputs (s : Server.server) :=
  (Server.image s, Server.binaryPath s, Server.instanceSpec s,
   ConfigHelper_GetFileName (Server.configHelper s),
   GetMainConfigMapName (Server.labeller_ s),
   ytv1.ImagePullSecrets (ytv1.Spec (apiproxy.GetResource (Server.ytsaurus s))),
   StatefulSet_Build (Server.statefulSet s),
   HeadlessService_Name (Server.headlessService s)).

(** The pod spec of a workload set. *)
Definition podSpecOf (o : appsv1.StatefulSet) : corev1.PodSpec :=
  corev1.Spec (appsv1.Template (appsv1.Spec o)).

End Observed.
End Observed.

(* ===================================================================== *)
(** * The state machine of the design document, as a list of rules *)

(** The per-component state machine written after the words of the design
    document: six rules, tried from the top, the first one that matches
    deciding the result.  It is compared with [ControllerAgent.doSync]
    below. *)
Module StateMachine.
Import ControllerAgent.

Section Rules.
Context `{Orchestration}.
Local Open Scope go_scope.

(** A rule either matches, and gives the result of the evaluation, or does
    not. *)
Definition rule : Type := M (option (ComponentStatus * error)).

(** Rule 1: the cluster state permits update initiation and the Managed
    Server reports [NeedUpdate]: [NeedLocalUpdate]. *)
Definition ruleNeedUpdate : rule :=
  ca <- get_agent ;;
  if IsReadyToUpdateClusterState (apiproxy.GetClusterState (ytsaurus ca))
  then
    needUpdate <- lift (Server.NeedUpdate (server ca)) ;;
    ret (if needUpdate
         then Some (SimpleStatus SyncStatusNeedLocalUpdate, nil_error)
         else None)
  else ret None.

(** Rule 2: the cluster state is Updating: the shared update-handling
    protocol is consulted, and a status it returns is the result. *)
Definition ruleUpdating (dry : bool) : rule :=
  ca <- get_agent ;;
  match apiproxy.GetClusterState (ytsaurus ca) with
  | ytv1.ClusterStateUpdating =>
      handled <- callHandleUpdatingClusterState dry ;;
      ret (match fst handled with
           | Some status => Some (status, snd handled)
           | None => None
           end)
  | _ => ret None
  end.

(** Rule 3: the dependency's status is not in the Ready family: [Blocked],
    with the dependency's name. *)
Definition ruleDependency : rule :=
  ca <- get_agent ;;
  ret (if IsRunningStatus (SyncStatus (components.Status (master ca)))
       then None
       else Some (WaitingStatus SyncStatusBlocked (GetName (master ca)), nil_error)).

(** Rule 4: [NeedSync]: [Pending("components")]; a live run first invokes
    the server's [Sync] and hands its error on. *)
Definition ruleNeedSync (dry : bool) : rule :=
  ca <- get_agent ;;
  if NeedSync ca
  then
    if dry
    then ret (Some (WaitingStatus SyncStatusPending "components", nil_error))
    else
      err <- callServerSync ;;
      ret (Some (WaitingStatus SyncStatusPending "components", err))
  else ret None.

(** Rule 5: the pods are not ready: [Blocked("pods")]. *)
Definition rulePods : rule :=
  ca <- get_agent ;;
  ret (if Server.ArePodsReady (server ca)
       then None
       else Some (WaitingStatus SyncStatusBlocked "pods", nil_error)).

(** Rule 6: otherwise [Ready]. *)
Definition ruleReady : M (ComponentStatus * error) :=
  ret (SimpleStatus SyncStatusReady, nil_error).

(** Top to bottom, first match wins. *)
Fixpoint firstMatch (rules : list rule) (otherwise : M (ComponentStatus * error))
  : M (ComponentStatus * error) :=
  match rules with
  | [] => otherwise
  | r :: rest =>
      matched <- r ;;
      match matched with
      | Some result => ret result
      | None => firstMatch rest otherwise
      end
  end.

Definition evaluate (dry : bool) : M (ComponentStatus * error) :=
  firstMatch
    [ ruleNeedUpdate; ruleUpdating dry; ruleDependency; ruleNeedSync dry; rulePods ]
    ruleReady.

(** The state in which rules 3 to 6 are tried: the initial one unless the
    cluster state is Updating, else the one the update-handling protocol
    leaves when it returns without a status. *)
Definition afterUpdating (dry : bool) (st : State) : option State :=
  if ytv1.ClusterState_eqb (apiproxy.GetClusterState (ytsaurus (agent st)))
       ytv1.ClusterStateUpdating
  then
    match callHandleUpdatingClusterState dry st with
    | Returned ((None, _), st') => Some st'
    | _ => None
    end
  else Some st.

(** Rule 1 does not match in [st]. *)
Definition noLocalUpdate (st : State) : Prop :=
  IsReadyToUpdateClusterState (apiproxy.GetClusterState (ytsaurus (agent st))) = false
  \/ Server.NeedUpdate (server (agent st)) = Returned false.

(** The dependency's status is in the Ready family in [st]. *)
Definition dependencyReady (st : State) : bool :=
  IsRunningStatus (SyncStatus (components.Status (master (agent st)))).

(** What the design document asks of the update-handling protocol on a dry
    run: it returns, and without an error. *)
Definition quietDryRun : Prop :=
  forall (ca : ControllerAgent) (w : World),
  exists o ca' w',
    handleUpdatingClusterState ca true w = Returned ((o, nil_error), (ca', w')).

End Rules.
End StateMachine.

(* ===================================================================== *)
(** * A sample cluster *)

(** The cluster of [config/samples] ("minisaurus": core image
    [ytsaurus/ytsaurus:stable-23.1.0-relwithdebinfo], one controller agent)
    with simple stand-ins for the collaborators, on which the theorems below
    are run at concrete states. *)
Module Minisaurus.

#[export] Instance payloads : Payloads := {|
  ObjectMeta := string;
  LabelSelector := string;
  LocalObjectReference := string;
  ResourceRequirements := unit;
  Affinity := unit;
  Toleration := unit;
  VolumeMount := string * string;
  Volume := string;
  PersistentVolumeClaim := string;
  LocationSpec := string * string;
  SpecVolumeMount := string * string;
  SpecVolume := string;
  SpecVolumeClaim := string;
  APIProxy := unit;
  GeneratorFunc := unit;
  Generator := unit;
|}.

(** A fetched workload set: its name, whether the fetch found it, the object
    found and whether its pods are ready. *)
Record FetchedStatefulSet : Type := {
  fetchedName : string;
  fetchedExists : bool;
  fetchedObject : appsv1.StatefulSet;
  fetchedPodsReady : bool;
}.

(** A config helper: the file name and what its checks answer. *)
Record FetchedConfig : Type := {
  fileName : string;
  needSync : bool;
  needReload : bool * error;
}.

(** The store: the error it answers a write with, and the writes so far. *)
Record Store : Type := {
  storeError : error;
  writes : list string;
}.

(** The zero value of [appsv1.StatefulSet]. *)
Definition emptyStatefulSet : appsv1.StatefulSet :=
  {| appsv1.Meta := None;
     appsv1.Spec :=
       {| appsv1.Replicas := None; appsv1.Selector := None;
          appsv1.Template :=
            {| corev1.TemplateMeta := None; corev1.Spec := corev1.emptyPodSpec |};
          appsv1.VolumeClaimTemplates := []; appsv1.ServiceName := "" |} |}.

(** A deployed workload set with one container running [img] and the given
    replica count. *)
Definition deployedStatefulSet (img : string) (replicas : Z) : appsv1.StatefulSet :=
  {| appsv1.Meta := Some "ca";
     appsv1.Spec :=
       {| appsv1.Replicas := Some replicas; appsv1.Selector := Some "ca";
          appsv1.Template :=
            {| corev1.TemplateMeta := Some "ca";
               corev1.Spec :=
                 {| corev1.ImagePullSecrets := [];
                    corev1.SetHostnameAsFQDN := Some true;
                    corev1.Containers :=
                      [ {| corev1.Image := img; corev1.Name := "ytserver";
                           corev1.Command := []; corev1.VolumeMounts := [];
                           corev1.Resources := None |} ];
                    corev1.InitContainers := []; corev1.Volumes := [];
                    corev1.Affinity_ := None; corev1.NodeSelector := [];
                    corev1.Tolerations := [] |} |};
          appsv1.VolumeClaimTemplates := [];
          appsv1.ServiceName := "controller-agents" |} |}.

#[export] Instance collaborators : Collaborators := {|
  StatefulSetResource := FetchedStatefulSet;
  NewStatefulSet := fun name _ _ =>
    {| fetchedName := name; fetchedExists := false;
       fetchedObject := emptyStatefulSet; fetchedPodsReady := false |};
  StatefulSet_Exists := fetchedExists;
  StatefulSet_OldObject := fetchedObject;
  StatefulSet_Build := fun r =>
    {| appsv1.Meta := Some (fetchedName r);
       appsv1.Spec :=
         {| appsv1.Replicas := None; appsv1.Selector := Some (fetchedName r);
            appsv1.Template :=
              {| corev1.TemplateMeta := Some (fetchedName r);
                 corev1.Spec := corev1.emptyPodSpec |};
            appsv1.VolumeClaimTemplates := []; appsv1.ServiceName := "" |} |};
  StatefulSet_ArePodsReady := fetchedPodsReady;
  HeadlessServiceResource := string * bool;
  NewHeadlessService := fun name _ _ => (name, false);
  HeadlessService_Exists := snd;
  HeadlessService_Name := fst;
  MonitoringServiceResource := bool;
  NewMonitoringService := fun _ _ => false;
  MonitoringService_Exists := fun found => found;
  ConfigHelper := FetchedConfig;
  NewConfigHelper := fun _ _ _ configFileName _ _ =>
    {| fileName := configFileName; needSync := true; needReload := (false, None) |};
  ConfigHelper_NeedSync := needSync;
  ConfigHelper_NeedReload := needReload;
  ConfigHelper_GetFileName := fileName;
  GetMainConfigMapName := fun l => "yt-" ++ labeller.ComponentLabel l ++ "-config";
  getLocationInitCommand := fun locations =>
    String.concat "; " (map (fun l => "mkdir -p " ++ snd l) locations);
  createVolumeMounts := fun mounts => (mounts ++ [("config", "/config")])%list;
  createVolumeClaims := fun claims => claims;
  createVolumes := fun volumes configMap => (volumes ++ [configMap])%list;
  YTServerContainerName := "ytserver";
  PrepareLocationsContainerName := "prepare-locations";
  ConfigMountPoint := "/config";
  path_Join := fun dir file => dir ++ "/" ++ file;
  World := Store;
  resources_Sync := fun sts _ cfg hs _ w =>
    (storeError w,
     {| storeError := storeError w;
        writes := fetchedName sts :: fileName cfg :: fst hs :: writes w |});
|}.

(** Modelled from the spec: [IsReadyToUpdateClusterState] is declared in
    [api/v1], outside the embedded files.  The design document starts an
    update when a component reports [NeedLocalUpdate] "and cluster state is
    Running" (and its scenario C has a [Running] cluster return
    [NeedLocalUpdate]): update initiation is permitted in [Running]. *)
Definition IsReadyToUpdateClusterState_spec (state : ytv1.ClusterState) : bool :=
  ytv1.ClusterState_eqb state ytv1.ClusterStateRunning.

(** Modelled from the spec: [IsRunningStatus] is declared outside the
    embedded files.  The design document speaks of "the Ready family" without
    listing it; [Ready] belongs to it and [Blocked] and [Pending] do not.  The
    update-needing statuses of a running component are taken to belong to
    it. *)
Definition IsRunningStatus_spec (status : SyncStatusEnum) : bool :=
  match status with
  | SyncStatusReady | SyncStatusNeedLocalUpdate | SyncStatusNeedFullUpdate => true
  | _ => false
  end.

(** The update-handling protocol for a component that is not flagged for
    update: it returns no status. *)
#[export] Instance orchestration : ControllerAgent.Orchestration := {|
  ControllerAgent.IsReadyToUpdateClusterState := IsReadyToUpdateClusterState_spec;
  ControllerAgent.IsRunningStatus := IsRunningStatus_spec;
  ControllerAgent.handleUpdatingClusterState := fun ca _ w =>
    Returned ((None, nil_error), (ca, w));
|}.

Definition coreImage : string := "ytsaurus/ytsaurus:stable-23.1.0-relwithdebinfo".

Definition cluster (state : ytv1.ClusterState) : apiproxy.Ytsaurus :=
  {| apiproxy.GetResource :=
       {| ytv1.Meta := Some "minisaurus";
          ytv1.Spec :=
            {| ytv1.CoreImage := coreImage;
               ytv1.ImagePullSecrets := [];
               ytv1.ConfigOverrides := Some "minisaurus-overrides" |};
          ytv1.Status := {| ytv1.State := state |} |};
     apiproxy.APIProxy_ := tt |}.

(** [controllerAgents: instanceCount: 1], with an optional image override. *)
Definition controllerAgents (override : option string) : ytv1.InstanceSpec :=
  {| ytv1.Image := override; ytv1.InstanceCount := 1; ytv1.Locations := [];
     ytv1.VolumeMounts := []; ytv1.Volumes := []; ytv1.VolumeClaimTemplates := [];
     ytv1.Resources := None; ytv1.Affinity_ := None; ytv1.NodeSelector := [];
     ytv1.Tolerations := [] |}.

Definition caLabeller : labeller.Labeller :=
  {| labeller.ObjectMeta_ := Some "minisaurus"; labeller.APIProxy_ := tt;
     labeller.ComponentLabel := "yt-controller-agent";
     labeller.ComponentName := "ControllerAgent" |}.

(** The server as [NewControllerAgent] constructs it: nothing fetched yet. *)
Definition newServer (state : ytv1.ClusterState) (override : option string) : Server.server :=
  Server.NewServer caLabeller (cluster state) (controllerAgents override)
    "/usr/bin/ytserver-controller-agent" "ytserver-controller-agent.yson"
    "ca" "controller-agents" tt.

(** The server after a fetch that found all three objects: the workload set
    runs [img] with [replicas] replicas. *)
Definition fetchedServer (state : ytv1.ClusterState) (img : string) (replicas : Z)
  (podsReady : bool) (stale : bool) (reload : bool * error) : Server.server :=
  let s := newServer state None in
  {| Server.image := Server.image s;
     Server.labeller_ := Server.labeller_ s;
     Server.ytsaurus := Server.ytsaurus s;
     Server.binaryPath := Server.binaryPath s;
     Server.instanceSpec := Server.instanceSpec s;
     Server.statefulSet :=
       {| fetchedName := "ca"; fetchedExists := true;
          fetchedObject := deployedStatefulSet img replicas;
          fetchedPodsReady := podsReady |};
     Server.headlessService := ("controller-agents", true);
     Server.monitoringService := true;
     Server.builtStatefulSet := None;
     Server.readyCondition := Server.readyCondition s;
     Server.configHelper :=
       {| fileName := "ytserver-controller-agent.yson"; needSync := stale;
          needReload := reload |} |}.

(** A controller agent over a server, with the status of its master. *)
Definition agentOver (state : ytv1.ClusterState) (s : Server.server)
  (masterStatus : ComponentStatus) : ControllerAgent.ControllerAgent :=
  {| ControllerAgent.labeller_ := caLabeller;
     ControllerAgent.ytsaurus := cluster state;
     ControllerAgent.server := s;
     ControllerAgent.cfgen := Some tt;
     ControllerAgent.master := {| GetName := "Master"; Status := masterStatus |} |}.

Definition stateOver (ca : ControllerAgent.ControllerAgent) (failure : error)
  : ControllerAgent.State :=
  {| ControllerAgent.agent := ca;
     ControllerAgent.world := {| storeError := failure; writes := [] |};
     ControllerAgent.calls := [] |}.

(** Converged: every object exists with the spec's image and replica count,
    the pods are ready, the cluster is [Running] and the master [Ready]. *)
Definition convergedServer : Server.server :=
  fetchedServer ytv1.ClusterStateRunning coreImage 1 true false (false, None).

(** The deployed image is an older one. *)
Definition outdatedServer : Server.server :=
  fetchedServer ytv1.ClusterStateRunning "ytsaurus/ytsaurus:stable-22.4.0" 1 true false
    (false, None).

(** The workload set is deployed with no replica yet. *)
Definition scalingServer : Server.server :=
  fetchedServer ytv1.ClusterStateRunning coreImage 0 false false (false, None).

(** The reload check fails. *)
Definition unreadableConfigServer : Server.server :=
  fetchedServer ytv1.ClusterStateRunning coreImage 1 true false
    (true, Some "cannot read the deployed config").

Definition masterReady : ComponentStatus := SimpleStatus SyncStatusReady.
Definition masterBlocked : ComponentStatus := WaitingStatus SyncStatusBlocked "Discovery".

(** Running cluster, converged server, ready master. *)
Definition converged : ControllerAgent.State :=
  stateOver (agentOver ytv1.ClusterStateRunning convergedServer masterReady) None.

(** Running cluster, outdated image, blocked master. *)
Definition outdatedBehindBlockedMaster : ControllerAgent.State :=
  stateOver (agentOver ytv1.ClusterStateRunning outdatedServer masterBlocked) None.

(** Cluster being created, nothing created yet, blocked master. *)
Definition creatingBehindBlockedMaster : ControllerAgent.State :=
  stateOver
    (agentOver ytv1.ClusterStateCreating (newServer ytv1.ClusterStateCreating None)
       masterBlocked)
    None.

(** Running cluster, workload set at zero replicas, ready master; the store
    answers writes with [failure]. *)
Definition scaling (failure : error) : ControllerAgent.State :=
  stateOver (agentOver ytv1.ClusterStateRunning scalingServer masterReady) failure.

(** Everything exists and the deployed workload set is the one the server
    builds; the pods are ready. *)
Definition redeployedServer : Server.server :=
  let s := newServer ytv1.ClusterStateRunning None in
  {| Server.image := Server.image s;
     Server.labeller_ := Server.labeller_ s;
     Server.ytsaurus := Server.ytsaurus s;
     Server.binaryPath := Server.binaryPath s;
     Server.instanceSpec := Server.instanceSpec s;
     Server.statefulSet :=
       {| fetchedName := "ca"; fetchedExists := true;
          fetchedObject := fst (Server.RebuildStatefulSet s);
          fetchedPodsReady := true |};
     Server.headlessService := ("controller-agents", true);
     Server.monitoringService := true;
     Server.builtStatefulSet := None;
     Server.readyCondition := Server.readyCondition s;
     Server.configHelper :=
       {| fileName := "ytserver-controller-agent.yson"; needSync := false;
          needReload := (false, None) |} |}.

Definition redeployed : ControllerAgent.State :=
  stateOver (agentOver ytv1.ClusterStateRunning redeployedServer masterReady) None.

(** A server whose instance spec asks for no instance, with everything
    deployed and the workload set at zero replicas. *)
Definition drainedServer : Server.server :=
  let s := fetchedServer ytv1.ClusterStateRunning coreImage 0 false false (false, None) in
  {| Server.image := Server.image s;
     Server.labeller_ := Server.labeller_ s;
     Server.ytsaurus := Server.ytsaurus s;
     Server.binaryPath := Server.binaryPath s;
     Server.instanceSpec :=
       {| ytv1.Image := None; ytv1.InstanceCount := 0; ytv1.Locations := [];
          ytv1.VolumeMounts := []; ytv1.Volumes := [];
          ytv1.VolumeClaimTemplates := []; ytv1.Resources := None;
          ytv1.Affinity_ := None; ytv1.NodeSelector := [];
          ytv1.Tolerations := [] |};
     Server.statefulSet := Server.statefulSet s;
     Server.headlessService := Server.headlessService s;
     Server.monitoringService := Server.monitoringService s;
     Server.builtStatefulSet := None;
     Server.readyCondition := Server.readyCondition s;
     Server.configHelper := Server.configHelper s |}.

(** All three objects are reported as existing, but the workload set that
    was fetched has no container. *)
Definition hollowServer : Server.server :=
  let s := newServer ytv1.ClusterStateRunning None in
  {| Server.image := Server.image s;
     Server.labeller_ := Server.labeller_ s;
     Server.ytsaurus := Server.ytsaurus s;
     Server.binaryPath := Server.binaryPath s;
     Server.instanceSpec := Server.instanceSpec s;
     Server.statefulSet :=
       {| fetchedName := "ca"; fetchedExists := true;
          fetchedObject := emptyStatefulSet; fetchedPodsReady := false |};
     Server.headlessService := ("controller-agents", true);
     Server.monitoringService := true;
     Server.builtStatefulSet := None;
     Server.readyCondition := Server.readyCondition s;
     Server.configHelper :=
       {| fileName := "ytserver-controller-agent.yson"; needSync := false;
          needReload := (false, None) |} |}.

Definition hollow (state : ytv1.ClusterState) : ControllerAgent.State :=
  stateOver (agentOver state hollowServer masterReady) None.

(** Running cluster, nothing created yet, ready master; the store answers
    writes with [failure]. *)
Definition freshlyCreated (failure : error) : ControllerAgent.State :=
  stateOver
    (agentOver ytv1.ClusterStateRunning (newServer ytv1.ClusterStateRunning None)
       masterReady)
    failure.

(** An update-handling protocol that reports the store's error, with a
    status once something was written and without one before. *)
Definition erraticOrchestration : ControllerAgent.Orchestration := {|
  ControllerAgent.IsReadyToUpdateClusterState := IsReadyToUpdateClusterState_spec;
  ControllerAgent.IsRunningStatus := IsRunningStatus_spec;
  ControllerAgent.handleUpdatingClusterState := fun ca _ w =>
    Returned
      ((match writes w with
        | [] => None
        | _ :: _ => Some (WaitingStatus SyncStatusPending "pods removal")
        end,
        storeError w),
       (ca, w));
|}.

(** Updating cluster, converged server, ready master; the store holds
    [written] and answers with [failure]. *)
Definition updating (written : list string) (failure : error) : ControllerAgent.State :=
  {| ControllerAgent.agent :=
       agentOver ytv1.ClusterStateUpdating
         (fetchedServer ytv1.ClusterStateUpdating coreImage 1 true false (false, None))
         masterReady;
     ControllerAgent.world := {| storeError := failure; writes := written |};
     ControllerAgent.calls := [] |}.

End Minisaurus.

(* ===================================================================== *)
(** * Reading the result of a run *)

Module Runs.

(** The status a run of [doSync] returns, or the panic it ends in. *)
Definition statusOf {S : Type} (o : outcome ((ComponentStatus * error) * S))
  : outcome ComponentStatus :=
  match o with
  | Returned ((status, _), _) => Returned status
  | Panicked p => Panicked p
  end.

End Runs.

(* ===================================================================== *)
(** * Properties of the Managed Server *)

Section ServerProperties.
Context `{Collaborators}.
Import Observed.

Lemma exists_true_iff (s : Server.server) :
  Server.exists_ s = true <-> allExist s.
Proof.
  unfold Server.exists_, allExist.
  rewrite !andb_true_iff. tauto.
Qed.

Lemma exists_false_iff (s : Server.server) :
  Server.exists_ s = false <-> someMissing s.
Proof.
  unfold Server.exists_, someMissing.
  rewrite !andb_false_iff. tauto.
Qed.

Lemma deployedImage_cons (s : Server.server) c rest :
  Server.deployedContainers s = c :: rest ->
  deployedImage s = Some (corev1.Image c).
Proof.
  unfold deployedImage. intros ->. reflexivity.
Qed.

Lemma imageCorrespondsToSpec_cons (s : Server.server) c rest :
  Server.deployedContainers s = c :: rest ->
  Server.imageCorrespondsToSpec s =
  Returned (String.eqb (corev1.Image c) (Server.image s)).
Proof.
  unfold Server.imageCorrespondsToSpec, index. intros ->. reflexivity.
Qed.

(** Without a first container the comparison of images panics. *)
Lemma imageCorrespondsToSpec_nil (s : Server.server) :
  Server.deployedContainers s = [] ->
  Server.imageCorrespondsToSpec s = Panicked (IndexOutOfRange 0 0).
Proof.
  unfold Server.imageCorrespondsToSpec, index. intros ->. reflexivity.
Qed.

Lemma NeedUpdate_missing (s : Server.server) :
  Server.exists_ s = false -> Server.NeedUpdate s = Returned false.
Proof.
  unfold Server.NeedUpdate. intros ->. reflexivity.
Qed.

(** On a state a fetch can produce, [NeedUpdate] returns. *)
Lemma NeedUpdate_returns (s : Server.server) :
  wellFetched s -> exists b : bool, Server.NeedUpdate s = Returned b.
Proof.
  intros Hwf. unfold Server.NeedUpdate.
  destruct (Server.exists_ s) eqn:Hex; cbn [negb]; [|now exists false].
  specialize (Hwf Hex).
  destruct (Server.deployedContainers s) as [|c rest] eqn:Hcs; [contradiction|].
  rewrite (imageCorrespondsToSpec_cons s c rest Hcs).
  destruct (negb _); [now exists true|].
  destruct (ConfigHelper_NeedReload _) as [needReload [e|]]; eauto.
Qed.

(** C4. For every observed state (one a fetch can produce), [NeedUpdate]
    returns, and it returns [true] exactly when all three owned objects exist
    and either the image of the deployed workload set's first container
    differs from the server's resolved image or the Config Provider reports
    that the deployed config needs a reload; in particular it returns [false]
    whenever the owned objects do not all exist. *)
Theorem NeedUpdate_iff_deployed_and_outdated (s : Server.server) :
  wellFetched s ->
  exists b : bool,
    Server.NeedUpdate s = Returned b /\
    (b = true <->
       allExist s /\
       (deployedImage s <> Some (Server.image s) \/ reloadReported s)) /\
    (Server.exists_ s = false -> b = false).
Proof.
  intros Hwf.
  destruct (Server.exists_ s) eqn:Hex.
  - specialize (Hwf Hex).
    destruct (Server.deployedContainers s) as [|c rest] eqn:Hcs; [contradiction|].
    pose proof (deployedImage_cons s c rest Hcs) as Himg.
    pose proof (imageCorrespondsToSpec_cons s c rest Hcs) as Hcorr.
    unfold Server.NeedUpdate. rewrite Hex, Hcorr, Himg. cbn [negb].
    apply exists_true_iff in Hex.
    unfold reloadReported, nil_error.
    destruct (String.eqb_spec (corev1.Image c) (Server.image s)) as [Heq|Hne]; cbn [negb].
    + destruct (ConfigHelper_NeedReload (Server.configHelper s)) as [needReload [e|]].
      * exists false. split; [reflexivity|]. split; [|discriminate].
        split; [discriminate|].
        intros [_ [Hd|Hr]]; [rewrite Heq in Hd; now elim Hd | discriminate].
      * exists needReload. split; [reflexivity|]. split; [|discriminate].
        split.
        -- intros ->. split; [assumption|]. now right.
        -- intros [_ [Hd|Hr]]; [rewrite Heq in Hd; now elim Hd | congruence].
    + exists true. split; [reflexivity|]. split; [|discriminate].
      split; [|reflexivity].
      intros _. split; [assumption|]. left. congruence.
  - exists false. split; [now apply NeedUpdate_missing|]. split; [|reflexivity].
    split; [discriminate|].
    intros [Hall _]. apply exists_true_iff in Hall. congruence.
Qed.

(** C5. [NeedSync] is [true] exactly when the config artifact is stale, or
    at least one owned object does not exist, or the replica count of the
    deployed workload set is not the instance spec's. *)
Theorem NeedSync_iff_stale_missing_or_scaled (s : Server.server) :
  Server.NeedSync s = true <->
  ConfigHelper_NeedSync (Server.configHelper s) = true \/
  someMissing s \/
  deployedReplicas s <> Some (ytv1.InstanceCount (Server.instanceSpec s)).
Proof.
  unfold Server.NeedSync.
  rewrite !orb_true_iff, negb_true_iff, exists_false_iff.
  unfold resources.StatefulSet_NeedSync, deployedReplicas.
  destruct (appsv1.Replicas _) as [n|].
  - rewrite negb_true_iff, Z.eqb_neq.
    split.
    + intros [[Hc|Hm]|Hr]; [now left | now (right; left) | right; right].
      congruence.
    + intros [Hc|[Hm|Hr]]; [now (left; left) | now (left; right) | right].
      intros ->. now apply Hr.
  - split; intros _; right; [right; discriminate | reflexivity].
Qed.

(** C8. [ArePodsRemoved] is [true] only when the workload set exists and,
    against the target of zero replicas it is checked with, needs no sync:
    the deployed replica count is zero.  It is [false] for a component whose
    workload set was never created. *)
Theorem ArePodsRemoved_only_when_scaled_to_zero (s : Server.server) :
  (Server.ArePodsRemoved s = true ->
     StatefulSet_Exists (Server.statefulSet s) = true /\
     resources.StatefulSet_NeedSync (Server.statefulSet s) 0 = false /\
     deployedReplicas s = Some 0%Z) /\
  (StatefulSet_Exists (Server.statefulSet s) = false ->
     Server.ArePodsRemoved s = false).
Proof.
  unfold Server.ArePodsRemoved, resources.StatefulSet_NeedSync, deployedReplicas.
  split.
  - destruct (ConfigHelper_NeedSync _); [discriminate|].
    destruct (StatefulSet_Exists _); [|discriminate].
    destruct (HeadlessService_Exists _); [|discriminate].
    cbn [orb negb].
    destruct (appsv1.Replicas _) as [n|]; [|discriminate].
    rewrite negb_involutive. intros Hz. apply Z.eqb_eq in Hz. subst n.
    repeat split; reflexivity.
  - intros ->. now rewrite orb_true_r.
Qed.

(** C10. When the config-reload check inside [NeedUpdate] is reached (all
    owned objects exist and the deployed image is the resolved one) and fails
    with an error, [NeedUpdate] returns [false], whatever the check's boolean
    result: the error is dropped. *)
Theorem NeedUpdate_swallows_reload_error (s : Server.server) (e : string) :
  Server.exists_ s = true ->
  deployedImage s = Some (Server.image s) ->
  snd (ConfigHelper_NeedReload (Server.configHelper s)) = Some e ->
  Server.NeedUpdate s = Returned false.
Proof.
  intros Hex Himg Herr.
  unfold Server.NeedUpdate. rewrite Hex. cbn [negb].
  unfold deployedImage in Himg.
  destruct (Server.deployedContainers s) as [|c rest] eqn:Hcs; [discriminate|].
  rewrite (imageCorrespondsToSpec_cons s c rest Hcs).
  cbn in Himg. injection Himg as Himg. rewrite Himg, String.eqb_refl. cbn [negb].
  destruct (ConfigHelper_NeedReload (Server.configHelper s)) as [needReload err].
  cbn in Herr. subst err. reflexivity.
Qed.

End ServerProperties.

(* ===================================================================== *)
(** * Properties of the workload-set builders *)

Section BuildProperties.
Context `{Collaborators}.
Import Observed.

(** The rebuilt object is a function of [buildInputs]. *)
Lemma RebuildStatefulSet_reads_buildInputs (s s' : Server.server) :
  buildInputs s' = buildInputs s ->
  fst (Server.RebuildStatefulSet s') = fst (Server.RebuildStatefulSet s).
Proof.
  unfold buildInputs. intros Heq.
  injection Heq as Himage Hpath Hspec Hfile Hmap Hsecrets Hskeleton Hservice.
  unfold Server.RebuildStatefulSet. cbn [fst].
  rewrite Himage, Hpath, Hspec, Hfile, Hmap, Hsecrets, Hskeleton, Hservice.
  reflexivity.
Qed.

(** Replacing the cache changes none of the inputs of a rebuild. *)
Lemma buildInputs_set_builtStatefulSet (s : Server.server) cached :
  buildInputs (Server.set_builtStatefulSet s cached) = buildInputs s.
Proof. reflexivity. Qed.

Lemma RebuildStatefulSet_cache (s : Server.server) :
  snd (Server.RebuildStatefulSet s) =
  Server.set_builtStatefulSet s (Some (fst (Server.RebuildStatefulSet s))).
Proof. reflexivity. Qed.

(** The containers of a rebuilt workload set. *)
Lemma RebuildStatefulSet_containers (s : Server.server) :
  exists main init : corev1.Container,
    corev1.Containers (podSpecOf (fst (Server.RebuildStatefulSet s))) = [main] /\
    corev1.InitContainers (podSpecOf (fst (Server.RebuildStatefulSet s))) = [init] /\
    corev1.Image main = Server.image s /\
    corev1.Image init = Server.image s /\
    corev1.Command main =
      [ Server.binaryPath s; "--config";
        path_Join ConfigMountPoint (ConfigHelper_GetFileName (Server.configHelper s)) ].
Proof.
  eexists. eexists. cbn. repeat split; reflexivity.
Qed.

(** C7. [RebuildStatefulSet] yields the same object on any two servers that
    agree on what it reads (instance spec, config artifact, resolved image
    and so on), hence the same object when called twice in a row; it always
    recomputes, whatever the cache holds, and stores its result in the cache.
    [BuildStatefulSet] returns the cached object when there is one, leaving
    the server as it is, and otherwise is [RebuildStatefulSet]; a second
    [BuildStatefulSet] returns the object of the first. *)
Theorem build_purity_and_caching (s : Server.server) :
  (forall s' : Server.server,
     buildInputs s' = buildInputs s ->
     fst (Server.RebuildStatefulSet s') = fst (Server.RebuildStatefulSet s)) /\
  Server.RebuildStatefulSet (snd (Server.RebuildStatefulSet s)) =
    Server.RebuildStatefulSet s /\
  (forall cached,
     fst (Server.RebuildStatefulSet (Server.set_builtStatefulSet s cached)) =
     fst (Server.RebuildStatefulSet s)) /\
  Server.builtStatefulSet (snd (Server.RebuildStatefulSet s)) =
    Some (fst (Server.RebuildStatefulSet s)) /\
  (forall built,
     Server.builtStatefulSet s = Some built ->
     Server.BuildStatefulSet s = (built, s)) /\
  (Server.builtStatefulSet s = None ->
     Server.BuildStatefulSet s = Server.RebuildStatefulSet s) /\
  Server.BuildStatefulSet (snd (Server.BuildStatefulSet s)) =
    Server.BuildStatefulSet s.
Proof.
  split; [|split; [|split; [|split; [|split; [|split]]]]].
  - intros s'. apply RebuildStatefulSet_reads_buildInputs.
  - rewrite RebuildStatefulSet_cache. reflexivity.
  - intros cached. apply RebuildStatefulSet_reads_buildInputs.
    apply buildInputs_set_builtStatefulSet.
  - reflexivity.
  - intros built Hcached. unfold Server.BuildStatefulSet. now rewrite Hcached.
  - intros Hempty. unfold Server.BuildStatefulSet. now rewrite Hempty.
  - unfold Server.BuildStatefulSet.
    destruct (Server.builtStatefulSet s) as [built|] eqn:Hcached.
    + cbn [snd]. now rewrite Hcached.
    + reflexivity.
Qed.

(** C9. On a server made by [NewServer], the resolved image is the instance
    spec's override when one is set and the cluster's core image otherwise;
    the built workload set has one main and one init container, both with
    that image, and the main container's command is the binary path,
    ["--config"] and the config artifact's file joined to the config mount
    point. *)
Theorem built_image_and_command
  (l : labeller.Labeller) (yt : apiproxy.Ytsaurus) (spec : ytv1.InstanceSpec)
  (binaryPath configFileName statefulSetName serviceName : string)
  (generator : GeneratorFunc) :
  let s := Server.NewServer l yt spec binaryPath configFileName statefulSetName
             serviceName generator in
  let built := fst (Server.BuildStatefulSet s) in
  Server.image s =
    match ytv1.Image spec with
    | Some override => override
    | None => ytv1.CoreImage (ytv1.Spec (apiproxy.GetResource yt))
    end /\
  exists main init : corev1.Container,
    corev1.Containers (podSpecOf built) = [main] /\
    corev1.InitContainers (podSpecOf built) = [init] /\
    corev1.Image main = Server.image s /\
    corev1.Image init = Server.image s /\
    corev1.Command main =
      [ binaryPath; "--config";
        path_Join ConfigMountPoint (ConfigHelper_GetFileName (Server.configHelper s)) ].
Proof.
  intros s built. split; [reflexivity|].
  destruct (RebuildStatefulSet_containers s) as (main & init & Hm & Hi & Him & Hii & Hc).
  exists main, init. subst built.
  change (Server.BuildStatefulSet s) with (Server.RebuildStatefulSet s).
  repeat split; assumption.
Qed.

End BuildProperties.

(* ===================================================================== *)
(** * Properties of the ControllerAgent's decision procedure *)

Section ControllerAgentProperties.
Context `{ControllerAgent.Orchestration}.
Import Observed ControllerAgent StateMachine.

Ltac unfold_go :=
  unfold doSync, evaluate, firstMatch, ruleNeedUpdate, ruleUpdating,
    ruleDependency, ruleNeedSync, rulePods, ruleReady,
    bind, ret, lift, raise, get_agent, nil_error.

Ltac split_match :=
  match goal with
  | |- context [match ?x with _ => _ end] => destruct x eqn:?
  end.

(** [doSync] and the rule list of the design document compute the same
    thing. *)
Lemma doSync_evaluate (dry : bool) (st : State) :
  doSync dry st = evaluate dry st.
Proof.
  unfold_go.
  destruct (IsReadyToUpdateClusterState _);
    [destruct (Server.NeedUpdate _) as [[|]|p]|]; try reflexivity.
  all: destruct (apiproxy.GetClusterState (ytsaurus (agent st)));
    cbn [ytv1.ClusterState_eqb].
  all: try (destruct (callHandleUpdatingClusterState dry st)
              as [[[[status|] err] st']|p]; cbn [fst snd]; try reflexivity).
  all: destruct (IsRunningStatus _); cbn [negb]; try reflexivity.
  all: destruct (NeedSync _); try reflexivity.
  all: try (destruct dry; cbn [negb]; try reflexivity;
            match goal with
            | |- context [callServerSync ?s] =>
                destruct (callServerSync s) as [[? ?]|?]; reflexivity
            end).
  all: destruct (Server.ArePodsReady _); reflexivity.
Qed.

(** Rule 1 decides as soon as it matches. *)
Lemma doSync_NeedLocalUpdate (dry : bool) (st : State) :
  IsReadyToUpdateClusterState (apiproxy.GetClusterState (ytsaurus (agent st))) = true ->
  Server.NeedUpdate (server (agent st)) = Returned true ->
  doSync dry st = Returned ((SimpleStatus SyncStatusNeedLocalUpdate, nil_error), st).
Proof.
  intros Hready Hneed. unfold_go. now rewrite Hready, Hneed.
Qed.

(** Past rules 1 and 2, the evaluation is that of rules 3 to 6 in the state
    rule 2 left. *)
Lemma doSync_past_updating (dry : bool) (st st1 : State) :
  noLocalUpdate st ->
  afterUpdating dry st = Some st1 ->
  doSync dry st =
  firstMatch [ ruleDependency; ruleNeedSync dry; rulePods ] ruleReady st1.
Proof.
  intros Hno Hafter. rewrite doSync_evaluate.
  unfold afterUpdating in Hafter.
  unfold evaluate. cbn [firstMatch]. unfold bind at 1.
  assert (Hrule1 : ruleNeedUpdate st = Returned (None, st)).
  { unfold ruleNeedUpdate, bind, get_agent, lift, ret.
    destruct Hno as [Hno|Hno]; rewrite Hno; [reflexivity|].
    now destruct (IsReadyToUpdateClusterState _). }
  rewrite Hrule1. unfold bind at 1.
  assert (Hrule2 : ruleUpdating dry st = Returned (None, st1)).
  { unfold ruleUpdating, bind, get_agent, ret.
    destruct (apiproxy.GetClusterState (ytsaurus (agent st)));
      cbn [ytv1.ClusterState_eqb] in Hafter; try (injection Hafter as ->; reflexivity).
    destruct (callHandleUpdatingClusterState dry st) as [[[[status|] err] st']|p];
      try discriminate.
    injection Hafter as ->. reflexivity. }
  rewrite Hrule2. reflexivity.
Qed.

Lemma callHandleUpdatingClusterState_calls (dry : bool) (st st1 : State) o :
  callHandleUpdatingClusterState dry st = Returned (o, st1) ->
  calls st1 = HandleUpdatingCall dry :: calls st.
Proof.
  unfold callHandleUpdatingClusterState.
  destruct (handleUpdatingClusterState _ _ _) as [[? [? ?]]|?]; [|discriminate].
  intros Heq. injection Heq as _ <-. reflexivity.
Qed.

Lemma callServerSync_calls (st1 st2 : State) e :
  callServerSync st1 = Returned (e, st2) ->
  calls st2 = ServerSyncCall :: calls st1.
Proof.
  unfold callServerSync.
  destruct (Server.Sync _ _) as [[? ?] ?].
  intros Heq. injection Heq as _ <-. reflexivity.
Qed.

(** The server's [Sync] always returns. *)
Lemma callServerSync_returns (st1 : State) :
  callServerSync st1 =
  Returned
    (fst (fst (Server.Sync (server (agent st1)) (world st1))),
     {| agent :=
          set_server (agent st1)
            (snd (fst (Server.Sync (server (agent st1)) (world st1))));
        world := snd (Server.Sync (server (agent st1)) (world st1));
        calls := ServerSyncCall :: calls st1 |}).
Proof.
  unfold callServerSync.
  destruct (Server.Sync _ _) as [[? ?] ?]. reflexivity.
Qed.

(** The calls a dry run adds: at most that of the update-handling protocol,
    and only when the cluster state is Updating. *)
Lemma doSync_dry_calls (st st' : State) r :
  doSync true st = Returned (r, st') ->
  (calls st' = calls st /\
   (apiproxy.GetClusterState (ytsaurus (agent st)) <> ytv1.ClusterStateUpdating ->
    st' = st /\ snd r = nil_error)) \/
  (calls st' = HandleUpdatingCall true :: calls st /\
   apiproxy.GetClusterState (ytsaurus (agent st)) = ytv1.ClusterStateUpdating).
Proof.
  rewrite doSync_evaluate. unfold_go.
  destruct (IsReadyToUpdateClusterState _);
    [destruct (Server.NeedUpdate _) as [[|]|p]|]; try discriminate.
  1: { intros Heq. injection Heq as <- <-. left. now split. }
  all: destruct (apiproxy.GetClusterState (ytsaurus (agent st))) eqn:Hstate.
  all: try (destruct (callHandleUpdatingClusterState true st)
              as [[[[status|] err] st1]|p] eqn:Hcall; try discriminate;
            apply callHandleUpdatingClusterState_calls in Hcall; cbn [fst snd]).
  all: repeat match goal with
       | |- context [if ?c then _ else _] => destruct c
       end.
  all: intros Heq; injection Heq as <- <-.
  all: first [ right; split; [assumption | reflexivity]
             | left; split; [reflexivity | intros _; split; reflexivity] ].
Qed.

(** On a state a fetch can produce, and with an update-handling protocol
    that is quiet on dry runs, a dry run returns without an error. *)
Lemma doSync_dry_returns (st : State) :
  quietDryRun -> wellFetched (server (agent st)) ->
  exists status st', doSync true st = Returned ((status, nil_error), st').
Proof.
  intros Hquiet Hwf.
  destruct (NeedUpdate_returns _ Hwf) as [b Hb].
  unfold_go.
  destruct (IsReadyToUpdateClusterState _); [rewrite Hb; destruct b|]; eauto.
  all: destruct (ytv1.ClusterState_eqb _ _).
  all: try (unfold callHandleUpdatingClusterState;
            destruct (Hquiet (agent st) (world st)) as (o & ca' & w' & Hh);
            rewrite Hh; destruct o as [status|]; cbn [agent]).
  all: cbn [negb].
  all: repeat match goal with
       | |- context [if ?c then _ else _] => destruct c
       end; eauto.
Qed.

(** Outside of the Updating cluster state a dry run changes nothing. *)
Lemma doSync_dry_returns_outside_updating (st : State) :
  apiproxy.GetClusterState (ytsaurus (agent st)) <> ytv1.ClusterStateUpdating ->
  wellFetched (server (agent st)) ->
  exists status, doSync true st = Returned ((status, nil_error), st).
Proof.
  intros Hstate Hwf.
  destruct (NeedUpdate_returns _ Hwf) as [b Hb].
  unfold_go.
  destruct (IsReadyToUpdateClusterState _); [rewrite Hb; destruct b|]; eauto.
  all: destruct (apiproxy.GetClusterState (ytsaurus (agent st)));
    try (now elim Hstate); cbn [ytv1.ClusterState_eqb].
  all: cbn [negb].
  all: repeat match goal with
       | |- context [if ?c then _ else _] => destruct c
       end; eauto.
Qed.

Lemma Status_of_doSync (st st' : State) status :
  doSync true st = Returned ((status, nil_error), st') ->
  Status st = Returned (status, st').
Proof.
  intros Hrun. unfold Status, bind. now rewrite Hrun.
Qed.

Lemma Sync_of_doSync (st st' : State) status err :
  doSync false st = Returned ((status, err), st') ->
  Sync st = Returned (err, st').
Proof.
  intros Hrun. unfold Sync, bind. now rewrite Hrun.
Qed.

(** C1. [doSync] is the rule list of the design document, tried from the
    top with the first matching rule deciding: (1) update permitted and
    [NeedUpdate]: [NeedLocalUpdate]; (2) Updating: the update-handling
    protocol, whose status, if any, is the result; (3) dependency not in the
    Ready family: [Blocked]; (4) [NeedSync]: [Pending]; (5) pods not ready:
    [Blocked]; (6) [Ready].  In particular rule 1 comes before rule 3: a
    component whose dependency is not ready is flagged [NeedLocalUpdate] when
    updates are permitted and it needs one. *)
Theorem doSync_first_matching_rule :
  (forall (dry : bool) (st : State), doSync dry st = evaluate dry st) /\
  (forall (dry : bool) (st : State),
     IsReadyToUpdateClusterState
       (apiproxy.GetClusterState (ytsaurus (agent st))) = true ->
     Server.NeedUpdate (server (agent st)) = Returned true ->
     dependencyReady st = false ->
     doSync dry st =
     Returned ((SimpleStatus SyncStatusNeedLocalUpdate, nil_error), st)).
Proof.
  split.
  - apply doSync_evaluate.
  - intros dry st Hready Hneed _. now apply doSync_NeedLocalUpdate.
Qed.

(** C2, amended. When rule 1 does not match (updates are not permitted or
    the server needs none) and the update-handling protocol is not consulted
    or returns no status, a dependency whose status is not in the Ready family
    makes [Status] return [Blocked] with the dependency's name, whether or not
    the component's objects exist, need a sync or have ready pods. *)
Theorem dependency_blocks_past_update_rules (st st1 : State) :
  noLocalUpdate st ->
  afterUpdating true st = Some st1 ->
  dependencyReady st1 = false ->
  Status st =
  Returned (WaitingStatus SyncStatusBlocked (GetName (master (agent st1))), st1).
Proof.
  intros Hno Hafter Hdep.
  apply Status_of_doSync.
  rewrite (doSync_past_updating true st st1 Hno Hafter).
  unfold dependencyReady in Hdep.
  unfold_go. now rewrite Hdep.
Qed.

(** C3. A dry run never invokes the server's [Sync]: the only call it can
    add is that of the update-handling protocol.  Outside of the Updating
    cluster state, on every state a fetch can produce, the dry run returns a
    status and a [nil] error and leaves the state as it is, so [Status]
    returns.  In the Updating state the same holds as long as the
    update-handling protocol is quiet on dry runs. *)
Theorem Status_total (st : State) :
  (forall r st',
     doSync true st = Returned (r, st') ->
     calls st' = calls st \/ calls st' = HandleUpdatingCall true :: calls st) /\
  (apiproxy.GetClusterState (ytsaurus (agent st)) <> ytv1.ClusterStateUpdating ->
   wellFetched (server (agent st)) ->
   exists status,
     doSync true st = Returned ((status, nil_error), st) /\
     Status st = Returned (status, st)) /\
  (quietDryRun ->
   wellFetched (server (agent st)) ->
   exists status st',
     doSync true st = Returned ((status, nil_error), st') /\
     Status st = Returned (status, st')).
Proof.
  split; [|split].
  - intros r st' Hrun.
    destruct (doSync_dry_calls st st' r Hrun) as [[Hsame _]|[Hcall _]];
      [now left | now right].
  - intros Hstate Hwf.
    destruct (doSync_dry_returns_outside_updating st Hstate Hwf) as [status Hrun].
    exists status. split; [assumption | now apply Status_of_doSync].
  - intros Hquiet Hwf.
    destruct (doSync_dry_returns st Hquiet Hwf) as (status & st' & Hrun).
    exists status, st'. split; [assumption | now apply Status_of_doSync].
Qed.

(** C6. When [NeedSync] holds and no earlier rule decides: a dry run returns
    [Pending("components")] with a [nil] error in the very state rule 2 left
    (the server's [Sync] is not invoked); a live run invokes the server's
    [Sync] once, returns [Pending("components")] whatever [Sync] returned,
    and hands the error of [Sync] to the caller of the component's [Sync]. *)
Theorem NeedSync_pending :
  (forall st st1 : State,
     noLocalUpdate st ->
     afterUpdating true st = Some st1 ->
     dependencyReady st1 = true ->
     NeedSync (agent st1) = true ->
     doSync true st =
       Returned ((WaitingStatus SyncStatusPending "components", nil_error), st1) /\
     Status st = Returned (WaitingStatus SyncStatusPending "components", st1)) /\
  (forall st st1 : State,
     noLocalUpdate st ->
     afterUpdating false st = Some st1 ->
     dependencyReady st1 = true ->
     NeedSync (agent st1) = true ->
     exists (err : error) (st2 : State),
       err = fst (fst (Server.Sync (server (agent st1)) (world st1))) /\
       callServerSync st1 = Returned (err, st2) /\
       calls st2 = ServerSyncCall :: calls st1 /\
       doSync false st =
         Returned ((WaitingStatus SyncStatusPending "components", err), st2) /\
       Sync st = Returned (err, st2)).
Proof.
  split; intros st st1 Hno Hafter Hdep Hsync; unfold dependencyReady in Hdep.
  - assert (Hrun : doSync true st =
      Returned ((WaitingStatus SyncStatusPending "components", nil_error), st1)).
    { rewrite (doSync_past_updating true st st1 Hno Hafter).
      unfold_go. now rewrite Hdep, Hsync. }
    split; [assumption | now apply Status_of_doSync].
  - pose proof (callServerSync_returns st1) as Hcall.
    eexists. eexists.
    split; [reflexivity|]. split; [exact Hcall|]. split; [reflexivity|].
    assert (Hrun : doSync false st =
      Returned ((WaitingStatus SyncStatusPending "components",
                 fst (fst (Server.Sync (server (agent st1)) (world st1)))),
                {| agent :=
                     set_server (agent st1)
                       (snd (fst (Server.Sync (server (agent st1)) (world st1))));
                   world := snd (Server.Sync (server (agent st1)) (world st1));
                   calls := ServerSyncCall :: calls st1 |})).
    { rewrite (doSync_past_updating false st st1 Hno Hafter).
      unfold_go. rewrite Hdep, Hsync, Hcall. reflexivity. }
    split; [exact Hrun | exact (Sync_of_doSync _ _ _ _ Hrun)].
Qed.

End ControllerAgentProperties.

(* ===================================================================== *)
(** * The theorems on the sample cluster *)

Section SampleRuns.
Import Observed ControllerAgent StateMachine Minisaurus.

(** C1 on the sample cluster: the image is outdated and the master blocked;
    the component is flagged for update. *)
Lemma doSync_first_matching_rule_witness :
  IsReadyToUpdateClusterState
    (apiproxy.GetClusterState (ytsaurus (agent outdatedBehindBlockedMaster))) = true /\
  Server.NeedUpdate (server (agent outdatedBehindBlockedMaster)) = Returned true /\
  dependencyReady outdatedBehindBlockedMaster = false /\
  doSync true outdatedBehindBlockedMaster =
    Returned ((SimpleStatus SyncStatusNeedLocalUpdate, nil_error),
              outdatedBehindBlockedMaster).
Proof.
  split; [reflexivity|]. split; [reflexivity|]. split; [reflexivity|].
  apply (proj2 doSync_first_matching_rule true outdatedBehindBlockedMaster);
    reflexivity.
Defined.

(** C2 as stated fails on the sample cluster: the master is [Blocked], which
    is not in the Ready family, and [Status] returns [NeedLocalUpdate], not
    [Blocked]. *)
Lemma dependency_blocked_yet_NeedLocalUpdate :
  dependencyReady outdatedBehindBlockedMaster = false /\
  Status outdatedBehindBlockedMaster =
    Returned (SimpleStatus SyncStatusNeedLocalUpdate, outdatedBehindBlockedMaster) /\
  ~ (exists st',
       Status outdatedBehindBlockedMaster =
       Returned (WaitingStatus SyncStatusBlocked
                   (GetName (master (agent outdatedBehindBlockedMaster))), st')).
Proof.
  split; [reflexivity|]. split; [reflexivity|].
  intros [st' Hblocked]. discriminate Hblocked.
Qed.

(** C2, amended, on the sample cluster: nothing is created yet, the cluster
    is being created and the master is blocked. *)
Lemma dependency_blocks_past_update_rules_witness :
  noLocalUpdate creatingBehindBlockedMaster /\
  afterUpdating true creatingBehindBlockedMaster = Some creatingBehindBlockedMaster /\
  dependencyReady creatingBehindBlockedMaster = false /\
  Status creatingBehindBlockedMaster =
    Returned (WaitingStatus SyncStatusBlocked "Master", creatingBehindBlockedMaster).
Proof.
  assert (Hno : noLocalUpdate creatingBehindBlockedMaster) by (left; reflexivity).
  split; [exact Hno|]. split; [reflexivity|]. split; [reflexivity|].
  exact (dependency_blocks_past_update_rules
           creatingBehindBlockedMaster creatingBehindBlockedMaster
           Hno eq_refl eq_refl).
Defined.

Lemma sample_quietDryRun : quietDryRun.
Proof.
  intros ca w. exists None, ca, w. reflexivity.
Defined.

Lemma sample_wellFetched (state : ytv1.ClusterState) (img : string) (replicas : Z)
  (podsReady stale : bool) (reload : bool * error) :
  wellFetched (fetchedServer state img replicas podsReady stale reload).
Proof.
  intros _. discriminate.
Defined.

(** C3 on the sample cluster: the converged component is [Ready]. *)
Lemma Status_total_witness :
  quietDryRun /\
  wellFetched (server (agent converged)) /\
  exists status st',
    doSync true converged = Returned ((status, nil_error), st') /\
    Status converged = Returned (status, st').
Proof.
  split; [exact sample_quietDryRun|].
  split; [apply sample_wellFetched|].
  apply (proj2 (proj2 (Status_total converged))).
  - exact sample_quietDryRun.
  - apply sample_wellFetched.
Defined.

(** C4 on the sample cluster: the deployed image is an older one. *)
Lemma NeedUpdate_iff_deployed_and_outdated_witness :
  wellFetched outdatedServer /\
  exists b : bool,
    Server.NeedUpdate outdatedServer = Returned b /\
    (b = true <->
       allExist outdatedServer /\
       (deployedImage outdatedServer <> Some (Server.image outdatedServer) \/
        reloadReported outdatedServer)) /\
    (Server.exists_ outdatedServer = false -> b = false).
Proof.
  split; [apply sample_wellFetched|].
  apply NeedUpdate_iff_deployed_and_outdated. apply sample_wellFetched.
Defined.

(** C7 on the sample cluster: the converged server, for which everything was
    fetched, and the newly made one, for which nothing was, are rebuilt into
    the same workload set. *)
Lemma build_purity_and_caching_witness :
  buildInputs convergedServer = buildInputs (newServer ytv1.ClusterStateRunning None) /\
  fst (Server.RebuildStatefulSet convergedServer) =
  fst (Server.RebuildStatefulSet (newServer ytv1.ClusterStateRunning None)).
Proof.
  split; [reflexivity|].
  apply (proj1 (build_purity_and_caching (newServer ytv1.ClusterStateRunning None))).
  reflexivity.
Defined.

(** C8 on the sample cluster: the workload set is deployed with zero
    replicas. *)
Lemma ArePodsRemoved_only_when_scaled_to_zero_witness :
  Server.ArePodsRemoved scalingServer = true /\
  StatefulSet_Exists (Server.statefulSet scalingServer) = true /\
  resources.StatefulSet_NeedSync (Server.statefulSet scalingServer) 0 = false /\
  deployedReplicas scalingServer = Some 0%Z.
Proof.
  split; [reflexivity|].
  apply (proj1 (ArePodsRemoved_only_when_scaled_to_zero scalingServer)).
  reflexivity.
Defined.

(** C10 on the sample cluster: the reload check answers [true] with an
    error. *)
Lemma NeedUpdate_swallows_reload_error_witness :
  Server.exists_ unreadableConfigServer = true /\
  deployedImage unreadableConfigServer = Some (Server.image unreadableConfigServer) /\
  snd (ConfigHelper_NeedReload (Server.configHelper unreadableConfigServer)) =
    Some "cannot read the deployed config" /\
  Server.NeedUpdate unreadableConfigServer = Returned false.
Proof.
  split; [reflexivity|]. split; [reflexivity|]. split; [reflexivity|].
  apply (NeedUpdate_swallows_reload_error unreadableConfigServer
           "cannot read the deployed config"); reflexivity.
Defined.

(** C6 on the sample cluster: the workload set has zero replicas where the
    spec asks for one; the store refuses the write. *)
Lemma NeedSync_pending_witness :
  noLocalUpdate (scaling (Some "write refused")) /\
  afterUpdating true (scaling (Some "write refused")) =
    Some (scaling (Some "write refused")) /\
  afterUpdating false (scaling (Some "write refused")) =
    Some (scaling (Some "write refused")) /\
  dependencyReady (scaling (Some "write refused")) = true /\
  NeedSync (agent (scaling (Some "write refused"))) = true /\
  Status (scaling (Some "write refused")) =
    Returned (WaitingStatus SyncStatusPending "components",
              scaling (Some "write refused")) /\
  exists st2,
    calls st2 = [ServerSyncCall] /\
    doSync false (scaling (Some "write refused")) =
      Returned ((WaitingStatus SyncStatusPending "components", Some "write refused"),
                st2) /\
    Sync (scaling (Some "write refused")) = Returned (Some "write refused", st2).
Proof.
  assert (Hno : noLocalUpdate (scaling (Some "write refused")))
    by (right; reflexivity).
  split; [exact Hno|]. split; [reflexivity|]. split; [reflexivity|].
  split; [reflexivity|]. split; [reflexivity|].
  split.
  - exact (proj2 (proj1 NeedSync_pending _ _ Hno eq_refl eq_refl eq_refl)).
  - destruct (proj2 NeedSync_pending _ _ Hno eq_refl eq_refl eq_refl)
      as (err & st2 & Herr & _ & Hcalls & Hrun & Hsync).
    exists st2. subst err. repeat split; assumption.
Defined.

End SampleRuns.

(* ===================================================================== *)
(** * Further properties of the Managed Server *)

Section ServerFurther.
Context `{Collaborators}.
Import Observed.

(** What [NeedUpdate] returning [true] tells. *)
Lemma NeedUpdate_true_inv (s : Server.server) :
  Server.NeedUpdate s = Returned true ->
  allExist s /\ (deployedImage s <> Some (Server.image s) \/ reloadReported s).
Proof.
  unfold Server.NeedUpdate.
  destruct (Server.exists_ s) eqn:Hex; cbn [negb]; [|discriminate].
  apply exists_true_iff in Hex.
  destruct (Server.deployedContainers s) as [|c rest] eqn:Hcs.
  - rewrite (imageCorrespondsToSpec_nil s Hcs). discriminate.
  - rewrite (imageCorrespondsToSpec_cons s c rest Hcs),
      (deployedImage_cons s c rest Hcs).
    destruct (String.eqb_spec (corev1.Image c) (Server.image s)) as [Heq|Hne];
      cbn [negb].
    + unfold reloadReported, nil_error.
      destruct (ConfigHelper_NeedReload _) as [needReload [e|]]; [discriminate|].
      intros Hr. injection Hr as ->. split; [assumption | now right].
    + intros _. split; [assumption|]. left. congruence.
Qed.

(** The workload set the server builds, once deployed, has the resolved
    image. *)
Lemma deployed_rebuild_image (s : Server.server) :
  StatefulSet_OldObject (Server.statefulSet s) = fst (Server.RebuildStatefulSet s) ->
  Server.deployedContainers s <> [] /\
  deployedImage s = Some (Server.image s) /\
  Server.imageCorrespondsToSpec s = Returned true.
Proof.
  intros Hdeployed.
  unfold deployedImage, Server.imageCorrespondsToSpec, Server.deployedContainers.
  rewrite Hdeployed. cbn. rewrite String.eqb_refl.
  split; [discriminate|]. split; reflexivity.
Qed.

(** The only panic of [NeedUpdate] is the index error of [Containers[0]]. *)
Lemma NeedUpdate_panics_inv (s : Server.server) (p : panic) :
  Server.NeedUpdate s = Panicked p ->
  p = IndexOutOfRange 0 0.
Proof.
  unfold Server.NeedUpdate.
  destruct (negb (Server.exists_ s)); [discriminate|].
  destruct (Server.deployedContainers s) as [|c rest] eqn:Hcs.
  - rewrite (imageCorrespondsToSpec_nil s Hcs). intros Heq. now injection Heq.
  - rewrite (imageCorrespondsToSpec_cons s c rest Hcs).
    destruct (negb _); [discriminate|].
    destruct (ConfigHelper_NeedReload _) as [needReload [e|]]; discriminate.
Qed.

(** X1.  [NeedUpdate] panics exactly when all three owned objects exist and the
    deployed workload set has no container: the panic is the index error of
    [Containers[0]]. *)
Theorem NeedUpdate_panics_iff (s : Server.server) (p : panic) :
  Server.NeedUpdate s = Panicked p <->
  Server.exists_ s = true /\
  Server.deployedContainers s = [] /\
  p = IndexOutOfRange 0 0.
Proof.
  unfold Server.NeedUpdate.
  destruct (Server.exists_ s); cbn [negb].
  - destruct (Server.deployedContainers s) as [|c rest] eqn:Hcs.
    + rewrite (imageCorrespondsToSpec_nil s Hcs).
      split.
      * intros Heq. injection Heq as <-. now repeat split.
      * intros (_ & _ & ->). reflexivity.
    + rewrite (imageCorrespondsToSpec_cons s c rest Hcs).
      split.
      * destruct (negb _); [discriminate|].
        destruct (ConfigHelper_NeedReload _) as [needReload [e|]]; discriminate.
      * intros (_ & Hnil & _). discriminate.
  - split; [discriminate|]. intros (Hex & _). discriminate.
Qed.

(** X2.  When the workload set found by the fetch is the one the server builds,
    the image comparison succeeds (it cannot panic: the built set has a
    container), the deployed replica count is the instance spec's, and
    [NeedUpdate] can only be [true] because a config reload is reported. *)
Theorem deployed_rebuild_corresponds (s : Server.server) :
  StatefulSet_OldObject (Server.statefulSet s) = fst (Server.RebuildStatefulSet s) ->
  Server.imageCorrespondsToSpec s = Returned true /\
  deployedImage s = Some (Server.image s) /\
  deployedReplicas s = Some (ytv1.InstanceCount (Server.instanceSpec s)) /\
  (Server.NeedUpdate s = Returned true -> reloadReported s).
Proof.
  intros Hdeployed.
  destruct (deployed_rebuild_image s Hdeployed) as (_ & Himage & Hcorr).
  split; [exact Hcorr|]. split; [exact Himage|]. split.
  - unfold deployedReplicas. now rewrite Hdeployed.
  - intros Hupd. apply NeedUpdate_true_inv in Hupd.
    destruct Hupd as [_ [Hd|Hr]]; [now elim Hd | exact Hr].
Qed.


(** X4.  With an instance count of zero, [NeedSync] and [ArePodsRemoved] consult
    the workload set with the same target: the server needs no sync exactly
    when its pods are removed and the monitoring service exists. *)
Theorem NeedSync_false_iff_pods_removed (s : Server.server) :
  ytv1.InstanceCount (Server.instanceSpec s) = 0%Z ->
  (Server.NeedSync s = false <->
   Server.ArePodsRemoved s = true /\
   MonitoringService_Exists (Server.monitoringService s) = true).
Proof.
  intros Hzero.
  unfold Server.NeedSync, Server.ArePodsRemoved, Server.exists_. rewrite Hzero.
  destruct (ConfigHelper_NeedSync _), (StatefulSet_Exists _),
    (HeadlessService_Exists _), (MonitoringService_Exists _),
    (resources.StatefulSet_NeedSync _ 0); cbn; intuition discriminate.
Qed.

End ServerFurther.

(* ===================================================================== *)
(** * Further properties of the ControllerAgent's decision procedure *)

Section ControllerAgentFurther.
Context `{ControllerAgent.Orchestration}.
Import Observed ControllerAgent StateMachine Runs.

Ltac unfold_run :=
  unfold doSync, bind, ret, lift, raise, get_agent, nil_error.

(** Case analysis on the tests [doSync] makes outside of the Updating
    cluster state. *)
Ltac decide_outside st :=
  unfold_run;
  destruct (IsReadyToUpdateClusterState _) eqn:Hperm;
  [destruct (Server.NeedUpdate _) as [[|]|?] eqn:Hupd|];
  (destruct (apiproxy.GetClusterState (ytsaurus (agent st))) eqn:Hcs;
   try congruence);
  cbn [ytv1.ClusterState_eqb];
  try (destruct (IsRunningStatus _) eqn:Hdep; cbn [negb];
       [destruct (NeedSync _) eqn:Hsync;
        [|destruct (Server.ArePodsReady _) eqn:Hpods; cbn [negb]]|]);
  cbn [negb].

(** Past rule 1: outside of the Updating cluster state no run ends in a
    panic that carries an error; in it, the run does so exactly as the
    update-handling protocol decides. *)
Ltac updating_or_not st :=
  destruct (apiproxy.GetClusterState (ytsaurus (agent st))) eqn:Hcs;
  cbn [ytv1.ClusterState_eqb];
  try (destruct (callHandleUpdatingClusterState true st)
         as [[[[status|] [e0|]] st1]|p0] eqn:Hcall; cbn [fst snd]);
  (split;
   [ cbn [negb];
     repeat match goal with
            | |- context [if ?c then _ else _] => destruct c
            end;
     cbn [fst snd];
     try discriminate;
     intros Heq; injection Heq as ->;
     (split; [first [now left | now right]|]);
     (split; [reflexivity|]);
     first [now right | left; eexists; eexists; reflexivity]
   | intros (_ & Hupdating & [(status' & st1' & Heq)|Heq]);
     try discriminate;
     first [ injection Heq as _ -> _; reflexivity
           | injection Heq as ->; reflexivity ] ]).

Lemma Status_inv (st st' : State) status :
  Status st = Returned (status, st') ->
  doSync true st = Returned ((status, nil_error), st').
Proof.
  unfold Status, bind, raise, ret.
  destruct (doSync true st) as [[[status0 [e|]] st0]|p]; cbn [fst snd];
    try discriminate.
  intros Heq. injection Heq as <- <-. reflexivity.
Qed.

(** X5.  Outside of the Updating cluster state the dry run and the live run
    return the same status (or end in the same panic): [Status] reports what
    [Sync] acts on. *)
Theorem dry_and_live_runs_agree (st : State) :
  apiproxy.GetClusterState (ytsaurus (agent st)) <> ytv1.ClusterStateUpdating ->
  statusOf (doSync true st) = statusOf (doSync false st).
Proof.
  intros Hstate. decide_outside st; try reflexivity.
  all: rewrite callServerSync_returns; reflexivity.
Qed.

(** X6.  Outside of the Updating cluster state a live run either returns a status
    other than [Pending] with a [nil] error and leaves everything as it was,
    or found [NeedSync], invoked the server's [Sync], and returns
    [Pending("components")] with the error of that [Sync]. *)
Theorem live_run_writes_only_for_Pending (st st' : State) r :
  apiproxy.GetClusterState (ytsaurus (agent st)) <> ytv1.ClusterStateUpdating ->
  doSync false st = Returned (r, st') ->
  (SyncStatus (fst r) <> SyncStatusPending /\ st' = st /\ snd r = nil_error) \/
  (fst r = WaitingStatus SyncStatusPending "components" /\
   NeedSync (agent st) = true /\
   snd r = fst (fst (Server.Sync (server (agent st)) (world st))) /\
   callServerSync st = Returned (snd r, st')).
Proof.
  intros Hstate. decide_outside st; try discriminate.
  all: try rewrite callServerSync_returns.
  all: intros Heq; injection Heq as <- <-; cbn [fst snd].
  all: first [ left; repeat split; discriminate
             | right; repeat split; reflexivity ].
Qed.

(** X7.  An error that the update-handling protocol returns without a status is
    discarded: the dry run goes on to the later rules with a [nil] error, and
    [Status] returns. *)
Theorem Status_ignores_error_without_status (st st1 : State) (e : error) :
  noLocalUpdate st ->
  apiproxy.GetClusterState (ytsaurus (agent st)) = ytv1.ClusterStateUpdating ->
  callHandleUpdatingClusterState true st = Returned ((None, e), st1) ->
  exists status,
    doSync true st = Returned ((status, nil_error), st1) /\
    Status st = Returned (status, st1).
Proof.
  intros Hno Hstate Hcall.
  assert (Hafter : afterUpdating true st = Some st1).
  { unfold afterUpdating. now rewrite Hstate, Hcall. }
  assert (Hrun : exists status, doSync true st = Returned ((status, nil_error), st1)).
  { rewrite (doSync_past_updating true st st1 Hno Hafter).
    unfold firstMatch, ruleDependency, ruleNeedSync, rulePods, ruleReady,
      bind, ret, get_agent.
    destruct (IsRunningStatus _); [|eauto].
    destruct (NeedSync _); [eauto|].
    destruct (Server.ArePodsReady _); eauto. }
  destruct Hrun as [status Hrun].
  exists status. split; [exact Hrun | now apply Status_of_doSync].
Qed.

(** X8.  [Status] panics with an error exactly when rule 1 does not match, the
    cluster state is Updating, and the update-handling protocol either
    returns a status together with that error or itself panics with it. *)
Theorem Status_panics_with_error_iff (st : State) (e : string) :
  Status st = Panicked (PanicWithError e) <->
  noLocalUpdate st /\
  apiproxy.GetClusterState (ytsaurus (agent st)) = ytv1.ClusterStateUpdating /\
  ((exists status st1,
      callHandleUpdatingClusterState true st = Returned ((Some status, Some e), st1)) \/
   callHandleUpdatingClusterState true st = Panicked (PanicWithError e)).
Proof.
  unfold Status, noLocalUpdate. unfold bind at 1. unfold raise, ret.
  unfold_run.
  destruct (IsReadyToUpdateClusterState _) eqn:Hperm;
    [destruct (Server.NeedUpdate _) as [[|]|p] eqn:Hupd|].
  - (* rule 1 matches *)
    cbn. split; [discriminate|]. intros [[?|?] _]; discriminate.
  - updating_or_not st.
  - (* NeedUpdate panics, with an index error *)
    cbn. split.
    + intros Heq. injection Heq as ->.
      apply NeedUpdate_panics_inv in Hupd. discriminate.
    + intros [[?|?] _]; discriminate.
  - updating_or_not st.
Qed.

(** X9.  A component with a missing object and a ready dependency is
    [Pending("components")] outside of the Updating cluster state, whether or
    not the cluster state permits updates: [NeedUpdate] is [false] and
    [NeedSync] is [true].  The live run invokes the server's [Sync]. *)
Theorem missing_objects_pending (st : State) :
  Server.exists_ (server (agent st)) = false ->
  apiproxy.GetClusterState (ytsaurus (agent st)) <> ytv1.ClusterStateUpdating ->
  dependencyReady st = true ->
  Status st = Returned (WaitingStatus SyncStatusPending "components", st) /\
  exists (err : error) (st2 : State),
    callServerSync st = Returned (err, st2) /\
    doSync false st =
      Returned ((WaitingStatus SyncStatusPending "components", err), st2).
Proof.
  intros Hmissing Hstate Hdep0. unfold dependencyReady in Hdep0.
  pose proof (NeedUpdate_missing _ Hmissing) as Hupd0.
  assert (Hsync0 : NeedSync (agent st) = true).
  { unfold NeedSync, Server.NeedSync. rewrite Hmissing.
    cbn [negb]. now rewrite orb_true_r. }
  split.
  - apply Status_of_doSync.
    decide_outside st; congruence.
  - eexists. eexists. split; [apply callServerSync_returns|].
    decide_outside st; try congruence.
    all: rewrite callServerSync_returns; reflexivity.
Qed.

(** X10.  Outside of the Updating cluster state, [Status] is [Ready] only for a
    component that is converged: all three objects exist, the config
    artifact is not stale, the workload set needs no sync for the instance
    spec's replica count, the pods are ready, the dependency is in the Ready
    family and, where the cluster state permits updates, [NeedUpdate]
    returned [false]. *)
Theorem Ready_only_when_converged (st st' : State) (status : ComponentStatus) :
  apiproxy.GetClusterState (ytsaurus (agent st)) <> ytv1.ClusterStateUpdating ->
  Status st = Returned (status, st') ->
  SyncStatus status = SyncStatusReady ->
  allExist (server (agent st)) /\
  ConfigHelper_NeedSync (Server.configHelper (server (agent st))) = false /\
  resources.StatefulSet_NeedSync (Server.statefulSet (server (agent st)))
    (ytv1.InstanceCount (Server.instanceSpec (server (agent st)))) = false /\
  Server.ArePodsReady (server (agent st)) = true /\
  dependencyReady st = true /\
  noLocalUpdate st.
Proof.
  intros Hstate Hstatus Hready. apply Status_inv in Hstatus.
  assert (Hconv : NeedSync (agent st) = false ->
            allExist (server (agent st)) /\
            ConfigHelper_NeedSync (Server.configHelper (server (agent st))) = false /\
            resources.StatefulSet_NeedSync (Server.statefulSet (server (agent st)))
              (ytv1.InstanceCount (Server.instanceSpec (server (agent st)))) = false).
  { unfold NeedSync, Server.NeedSync. intros Hsync.
    apply orb_false_iff in Hsync. destruct Hsync as [Hsync Hreplicas].
    apply orb_false_iff in Hsync. destruct Hsync as [Hstale Hex].
    apply negb_false_iff, exists_true_iff in Hex.
    split; [assumption | split; assumption]. }
  revert Hstatus. unfold dependencyReady, noLocalUpdate.
  decide_outside st; try discriminate.
  all: intros Heq; injection Heq as <- _; cbn in Hready; try discriminate.
  all: destruct (Hconv eq_refl) as (Hall & Hstale & Hreplicas).
  all: destruct Hall as (? & ? & ?).
  all: repeat split; first [assumption | reflexivity | now left | now right].
Qed.

(** X11.  Outside of the Updating cluster state, [Status] is [NeedLocalUpdate]
    only when the cluster state permits updates, all three objects exist and
    the deployed image differs from the resolved one or a config reload is
    reported: a component that was never created is never flagged for
    update. *)
Theorem NeedLocalUpdate_only_when_deployed (st st' : State) (status : ComponentStatus) :
  apiproxy.GetClusterState (ytsaurus (agent st)) <> ytv1.ClusterStateUpdating ->
  Status st = Returned (status, st') ->
  SyncStatus status = SyncStatusNeedLocalUpdate ->
  IsReadyToUpdateClusterState (apiproxy.GetClusterState (ytsaurus (agent st))) = true /\
  allExist (server (agent st)) /\
  (deployedImage (server (agent st)) <> Some (Server.image (server (agent st))) \/
   reloadReported (server (agent st))).
Proof.
  intros Hstate Hstatus Hflag. apply Status_inv in Hstatus.
  revert Hstatus.
  decide_outside st; try discriminate.
  all: intros Heq; injection Heq as <- _; cbn in Hflag; try discriminate.
  all: split; [reflexivity|].
  all: apply NeedUpdate_true_inv; assumption.
Qed.

(** X12.  When the cluster state neither permits updates nor is Updating, [Status]
    returns on every state and leaves it as it is: [NeedUpdate] is not
    evaluated, so even a fetched workload set without containers cannot make
    it panic. *)
Theorem Status_returns_when_update_not_permitted (st : State) :
  IsReadyToUpdateClusterState (apiproxy.GetClusterState (ytsaurus (agent st))) = false ->
  apiproxy.GetClusterState (ytsaurus (agent st)) <> ytv1.ClusterStateUpdating ->
  exists status, Status st = Returned (status, st).
Proof.
  intros Hclosed Hstate.
  assert (Hrun : exists status, doSync true st = Returned ((status, nil_error), st)).
  { decide_outside st; try congruence; eauto. }
  destruct Hrun as [status Hrun].
  exists status. now apply Status_of_doSync.
Qed.

(** X13.  Convergence: outside of the Updating cluster state, a component that
    needs no sync, whose deployed image is the resolved one, for which no
    config reload is reported, whose pods are ready and whose dependency is
    in the Ready family has status [Ready], whether or not the cluster state
    permits updates. *)
Theorem converged_component_is_Ready (st : State) :
  apiproxy.GetClusterState (ytsaurus (agent st)) <> ytv1.ClusterStateUpdating ->
  NeedSync (agent st) = false ->
  deployedImage (server (agent st)) = Some (Server.image (server (agent st))) ->
  ~ reloadReported (server (agent st)) ->
  Server.ArePodsReady (server (agent st)) = true ->
  dependencyReady st = true ->
  Status st = Returned (SimpleStatus SyncStatusReady, st).
Proof.
  intros Hstate Hsync0 Himage Hreload Hpods0 Hdep0.
  unfold dependencyReady in Hdep0.
  assert (Hex : Server.exists_ (server (agent st)) = true).
  { unfold NeedSync, Server.NeedSync in Hsync0.
    apply orb_false_iff in Hsync0. destruct Hsync0 as [Hsync0 _].
    apply orb_false_iff in Hsync0. destruct Hsync0 as [_ Hex].
    now apply negb_false_iff in Hex. }
  assert (Hupd0 : Server.NeedUpdate (server (agent st)) = Returned false).
  { unfold Server.NeedUpdate. rewrite Hex. cbn [negb].
    unfold deployedImage in Himage.
    destruct (Server.deployedContainers (server (agent st))) as [|c rest] eqn:Hcs;
      [discriminate|].
    rewrite (imageCorrespondsToSpec_cons _ c rest Hcs).
    cbn in Himage. injection Himage as Himage.
    rewrite Himage, String.eqb_refl. cbn [negb].
    unfold reloadReported, nil_error in Hreload.
    destruct (ConfigHelper_NeedReload _) as [[|] [e|]];
      try reflexivity. now elim Hreload. }
  apply Status_of_doSync.
  decide_outside st; congruence.
Qed.

End ControllerAgentFurther.

(* ===================================================================== *)
(** * The further theorems on the sample cluster *)

Section FurtherSampleRuns.
Import Observed ControllerAgent StateMachine Runs Minisaurus.

(** The fetched workload set without containers makes [NeedUpdate] panic. *)
Lemma NeedUpdate_panics_iff_witness :
  Server.exists_ hollowServer = true /\
  Server.deployedContainers hollowServer = [] /\
  Server.NeedUpdate hollowServer = Panicked (IndexOutOfRange 0 0).
Proof.
  split; [reflexivity|]. split; [reflexivity|].
  apply (proj2 (NeedUpdate_panics_iff hollowServer (IndexOutOfRange 0 0))).
  repeat split; reflexivity.
Defined.

Lemma deployed_rebuild_corresponds_witness :
  StatefulSet_OldObject (Server.statefulSet redeployedServer) =
    fst (Server.RebuildStatefulSet redeployedServer) /\
  Server.imageCorrespondsToSpec redeployedServer = Returned true /\
  deployedReplicas redeployedServer = Some 1%Z.
Proof.
  split; [reflexivity|].
  destruct (deployed_rebuild_corresponds redeployedServer eq_refl)
    as (Hcorr & _ & Hreplicas & _).
  split; assumption.
Defined.


Lemma NeedSync_false_iff_pods_removed_witness :
  ytv1.InstanceCount (Server.instanceSpec drainedServer) = 0%Z /\
  Server.ArePodsRemoved drainedServer = true /\
  MonitoringService_Exists (Server.monitoringService drainedServer) = true /\
  Server.NeedSync drainedServer = false.
Proof.
  split; [reflexivity|]. split; [reflexivity|]. split; [reflexivity|].
  apply (proj2 (NeedSync_false_iff_pods_removed drainedServer eq_refl)).
  split; reflexivity.
Defined.

Lemma sample_not_updating (s : Server.server) (m : ComponentStatus) (failure : error) :
  apiproxy.GetClusterState
    (ytsaurus (agent (stateOver (agentOver ytv1.ClusterStateRunning s m) failure)))
  <> ytv1.ClusterStateUpdating.
Proof. discriminate. Defined.

Lemma dry_and_live_runs_agree_witness :
  apiproxy.GetClusterState (ytsaurus (agent (scaling (Some "write refused"))))
    <> ytv1.ClusterStateUpdating /\
  statusOf (doSync true (scaling (Some "write refused"))) =
  statusOf (doSync false (scaling (Some "write refused"))).
Proof.
  split; [apply sample_not_updating|].
  apply dry_and_live_runs_agree. apply sample_not_updating.
Defined.

Lemma live_run_writes_only_for_Pending_witness :
  exists r st',
    doSync false (scaling (Some "write refused")) = Returned (r, st') /\
    fst r = WaitingStatus SyncStatusPending "components" /\
    snd r = Some "write refused" /\
    callServerSync (scaling (Some "write refused")) = Returned (snd r, st').
Proof.
  eexists. eexists. split; [reflexivity|].
  match goal with
  | |- fst ?r = _ /\ _ /\ _ = Returned (_, ?st') =>
      assert (Hrun : doSync false (scaling (Some "write refused")) = Returned (r, st'))
        by reflexivity;
      destruct (live_run_writes_only_for_Pending
                  (scaling (Some "write refused")) st' r
                  (sample_not_updating _ _ _) Hrun)
        as [(Hother & _)|(Hstatus & _ & Herr & Hcall)]
  end.
  - now elim Hother.
  - split; [exact Hstatus|]. split; [exact Herr | exact Hcall].
Defined.

(** The erratic protocol reports an error without a status: [Status]
    returns [Ready]. *)
Lemma Status_ignores_error_without_status_witness :
  @noLocalUpdate _ _ erraticOrchestration (updating [] (Some "drain failed")) /\
  apiproxy.GetClusterState (ytsaurus (agent (updating [] (Some "drain failed")))) =
    ytv1.ClusterStateUpdating /\
  @callHandleUpdatingClusterState _ _ erraticOrchestration true
      (updating [] (Some "drain failed")) =
    Returned ((None, Some "drain failed"),
              {| agent := agent (updating [] (Some "drain failed"));
                 world := world (updating [] (Some "drain failed"));
                 calls := [HandleUpdatingCall true] |}) /\
  exists status,
    @Status _ _ erraticOrchestration (updating [] (Some "drain failed")) =
    Returned (status,
              {| agent := agent (updating [] (Some "drain failed"));
                 world := world (updating [] (Some "drain failed"));
                 calls := [HandleUpdatingCall true] |}).
Proof.
  assert (Hno : @noLocalUpdate _ _ erraticOrchestration
                  (updating [] (Some "drain failed"))) by (left; reflexivity).
  split; [exact Hno|]. split; [reflexivity|]. split; [reflexivity|].
  destruct (@Status_ignores_error_without_status _ _ erraticOrchestration
              (updating [] (Some "drain failed")) _ (Some "drain failed")
              Hno eq_refl eq_refl) as (status & _ & Hstatus).
  exists status. exact Hstatus.
Defined.

(** The erratic protocol reports an error with a status: [Status] panics. *)
Lemma Status_panics_with_error_iff_witness :
  @Status _ _ erraticOrchestration (updating ["ca"] (Some "drain failed")) =
  Panicked (PanicWithError "drain failed").
Proof.
  apply (proj2 (@Status_panics_with_error_iff _ _ erraticOrchestration
                  (updating ["ca"] (Some "drain failed")) "drain failed")).
  split; [left; reflexivity|]. split; [reflexivity|].
  left. eexists. eexists. reflexivity.
Defined.

Lemma missing_objects_pending_witness :
  Server.exists_ (server (agent (freshlyCreated None))) = false /\
  apiproxy.GetClusterState (ytsaurus (agent (freshlyCreated None)))
    <> ytv1.ClusterStateUpdating /\
  dependencyReady (freshlyCreated None) = true /\
  Status (freshlyCreated None) =
    Returned (WaitingStatus SyncStatusPending "components", freshlyCreated None).
Proof.
  split; [reflexivity|]. split; [apply sample_not_updating|]. split; [reflexivity|].
  exact (proj1 (missing_objects_pending (freshlyCreated None) eq_refl
                  (sample_not_updating _ _ _) eq_refl)).
Defined.

Lemma Ready_only_when_converged_witness :
  apiproxy.GetClusterState (ytsaurus (agent converged)) <> ytv1.ClusterStateUpdating /\
  Status converged = Returned (SimpleStatus SyncStatusReady, converged) /\
  allExist (server (agent converged)) /\
  Server.ArePodsReady (server (agent converged)) = true.
Proof.
  assert (Hstatus : Status converged =
                    Returned (SimpleStatus SyncStatusReady, converged))
    by reflexivity.
  split; [apply sample_not_updating|]. split; [exact Hstatus|].
  destruct (Ready_only_when_converged converged converged
              (SimpleStatus SyncStatusReady) (sample_not_updating _ _ _)
              Hstatus eq_refl) as (Hall & _ & _ & Hpods & _).
  split; assumption.
Defined.

Lemma NeedLocalUpdate_only_when_deployed_witness :
  apiproxy.GetClusterState (ytsaurus (agent outdatedBehindBlockedMaster))
    <> ytv1.ClusterStateUpdating /\
  Status outdatedBehindBlockedMaster =
    Returned (SimpleStatus SyncStatusNeedLocalUpdate, outdatedBehindBlockedMaster) /\
  allExist (server (agent outdatedBehindBlockedMaster)).
Proof.
  assert (Hstatus : Status outdatedBehindBlockedMaster =
                    Returned (SimpleStatus SyncStatusNeedLocalUpdate,
                              outdatedBehindBlockedMaster))
    by reflexivity.
  split; [apply sample_not_updating|]. split; [exact Hstatus|].
  exact (proj1 (proj2 (NeedLocalUpdate_only_when_deployed
                  outdatedBehindBlockedMaster outdatedBehindBlockedMaster
                  (SimpleStatus SyncStatusNeedLocalUpdate)
                  (sample_not_updating _ _ _) Hstatus eq_refl))).
Defined.

(** The cluster is being created: [Status] returns although the fetched
    workload set has no container. *)
Lemma Status_returns_when_update_not_permitted_witness :
  IsReadyToUpdateClusterState
    (apiproxy.GetClusterState (ytsaurus (agent (hollow ytv1.ClusterStateCreating))))
    = false /\
  apiproxy.GetClusterState (ytsaurus (agent (hollow ytv1.ClusterStateCreating)))
    <> ytv1.ClusterStateUpdating /\
  Server.deployedContainers (server (agent (hollow ytv1.ClusterStateCreating))) = [] /\
  exists status,
    Status (hollow ytv1.ClusterStateCreating) =
    Returned (status, hollow ytv1.ClusterStateCreating).
Proof.
  assert (Hstate : apiproxy.GetClusterState
                     (ytsaurus (agent (hollow ytv1.ClusterStateCreating)))
                   <> ytv1.ClusterStateUpdating) by discriminate.
  split; [reflexivity|]. split; [exact Hstate|]. split; [reflexivity|].
  exact (Status_returns_when_update_not_permitted
           (hollow ytv1.ClusterStateCreating) eq_refl Hstate).
Defined.

Lemma converged_component_is_Ready_witness :
  apiproxy.GetClusterState (ytsaurus (agent redeployed)) <> ytv1.ClusterStateUpdating /\
  NeedSync (agent redeployed) = false /\
  deployedImage (server (agent redeployed)) =
    Some (Server.image (server (agent redeployed))) /\
  ~ reloadReported (server (agent redeployed)) /\
  Server.ArePodsReady (server (agent redeployed)) = true /\
  dependencyReady redeployed = true /\
  Status redeployed = Returned (SimpleStatus SyncStatusReady, redeployed).
Proof.
  assert (Hreload : ~ reloadReported (server (agent redeployed))) by discriminate.
  split; [apply sample_not_updating|]. split; [reflexivity|]. split; [reflexivity|].
  split; [exact Hreload|]. split; [reflexivity|]. split; [reflexivity|].
  exact (converged_component_is_Ready redeployed (sample_not_updating _ _ _)
           eq_refl eq_refl Hreload eq_refl eq_refl).
Defined.

End FurtherSampleRuns.
